(** * Kubernetes Homelab API: a shallow embedding of [apps/python-api/main.py]

    The service is a thin FastAPI facade over three external systems
    (PostgreSQL, Redis, RabbitMQ).  Its handlers are embedded as programs of
    a state-and-exception monad over an explicit [World]: the three backends
    (each with the contents the handlers can observe, an oracle that decides
    which client calls raise, and the trace of client calls made so far), the
    two Prometheus collectors, the wall clock and the logger.

    Python exceptions are values of [exn]; [try ... except Exception] is
    [try_except], which catches every [exn], [HTTPException] included, as in
    Python where [HTTPException] derives from [Exception]. *)

From stdpp Require Import gmap strings list sorting pretty.
From Stdlib Require Import ZArith.

Open Scope string_scope.
Open Scope nat_scope.
Open Scope list_scope.

(** ** Python values, exceptions and the handler monad *)

(** The Python values that travel through the handlers: JSON-like data and
    the column values psycopg2 puts in a row. *)
#[warnings="-register-all"]
Inductive pyval :=
| VNone
| VInt (n : Z)
| VStr (s : string)
| VDatetime (t : Z)
| VList (l : list pyval)
| VDict (d : list (string * pyval)).

(** Exceptions.  [HTTPException] is FastAPI's; [ClientError] stands for any
    exception raised inside a client library or while building its
    arguments (psycopg2, redis, pika errors, [ValueError] of [int(...)]).
    Both are subclasses of Python's [Exception]. *)
Inductive exn :=
| HTTPException (status_code : Z) (detail : string)
| ClientError (origin : string).

Inductive result (A : Type) :=
| Return (a : A)
| Raise (e : exn).
Arguments Return {A} a.
Arguments Raise {A} e.

(** A computation over a state [S] that returns or raises. *)
Definition M (S A : Type) : Type := S → result A * S.

Definition ret {S A} (a : A) : M S A := λ s, (Return a, s).

Definition raise {S A} (e : exn) : M S A := λ s, (Raise e, s).

Definition bind {S A B} (m : M S A) (k : A → M S B) : M S B :=
  λ s, match m s with
       | (Return a, s') => k a s'
       | (Raise e, s') => (Raise e, s')
       end.

Notation "'do' x <- m ; k" := (bind m (λ x, k))
  (at level 10, x name, m at level 100, k at level 200,
   format "'[v' 'do'  x  <-  m ; '/' k ']'").
Notation "m >> k" := (bind m (λ _, k))
  (at level 61, left associativity).

(** [try: body except Exception as e: handler e].  Every [exn] is an
    [Exception], so every raise of the body reaches the handler. *)
Definition try_except {S A} (body : M S A) (handler : exn → M S A) : M S A :=
  λ s, match body s with
       | (Return a, s') => (Return a, s')
       | (Raise e, s') => handler e s'
       end.

(** [with ... as x: body]: the exit action runs on both paths; an exception
    of the body is re-raised after it, unless the exit action raises itself. *)
Definition finally {S A} (body : M S A) (exit : M S unit) : M S A :=
  λ s, match body s with
       | (Return a, s') =>
           match exit s' with
           | (Return _, s'') => (Return a, s'')
           | (Raise e, s'') => (Raise e, s'')
           end
       | (Raise e, s') =>
           match exit s' with
           | (Return _, s'') => (Raise e, s'')
           | (Raise e', s'') => (Raise e', s'')
           end
       end.

Definition gets {S A} (f : S → A) : M S A := λ s, (Return (f s), s).

Definition modify {S} (f : S → S) : M S unit := λ s, (Return tt, f s).

(** ** The backends *)

(** A backend as the service sees it: the server's contents, the oracle
    [faults] (its head tells whether the next client call raises; an empty
    oracle means no further fault) and the trace [calls] of client calls,
    oldest first. *)
Record Backend (St Cmd : Type) := mkBackend {
  server : St;
  faults : list bool;
  calls : list Cmd
}.
Arguments mkBackend {St Cmd} _ _ _.
Arguments server {St Cmd} _.
Arguments faults {St Cmd} _.
Arguments calls {St Cmd} _.

(** One client call: it is recorded, the oracle is consulted, and only a
    call that does not fault reaches the server. *)
Definition call {St Cmd A} (c : Cmd) (origin : string)
    (op : St → result A * St) : M (Backend St Cmd) A :=
  λ b, let tr := calls b ++ [c] in
       if hd false (faults b)
       then (Raise (ClientError origin), mkBackend (server b) (tail (faults b)) tr)
       else let '(r, st) := op (server b) in
            (r, mkBackend st (tail (faults b)) tr).

(** The next [n] client calls of a backend do not fault. *)
Definition fault_free (n : nat) (fs : list bool) : bool :=
  forallb negb (take n fs).

(** *** Redis *)

(** A key holds a string and, when it has a time-to-live, the server time
    (milliseconds) at which it expires.  An entry past its deadline stays in
    the map and is hidden by [redis_lookup]; when Redis itself drops it
    cannot be observed through [GET]. *)
Record RedisServer := mkRedis {
  store : gmap string (string * option Z);
  now : Z
}.

Inductive redis_cmd :=
| RedisNew
| RedisPing
| RedisGet (key : string)
| RedisSet (key value : string) (ex : Z).

(** What [GET key] answers: an expired key is absent. *)
Definition redis_lookup (s : RedisServer) (key : string) : option string :=
  match store s !! key with
  | Some (v, Some deadline) => if (deadline <? now s)%Z then None else Some v
  | Some (v, None) => Some v
  | None => None
  end.

(** [SET key value EX ex]: replaces value and time-to-live. *)
Definition redis_store (s : RedisServer) (key v : string) (ex : Z) : RedisServer :=
  mkRedis (<[key := (v, Some (now s + ex * 1000)%Z)]> (store s)) (now s).

(** *** PostgreSQL *)

(** A [RealDictRow]: column name to value, in column order. *)
Definition row : Type := list (string * pyval).

(** The [users] relation when it exists and the result set held by the
    open cursor, with what PostgreSQL decides by itself when it sorts: the
    order of the values that are neither numbers nor timestamps, as a rank
    ([collation]), and, for each coming statement, the order it gives to
    rows it finds equal ([tie_breaks], one entry a statement; past the end
    of the list such rows keep the order of the table).  Any order among
    equal rows is the tie-break of some ranking of the rows. *)
Record Postgres := mkPostgres {
  users : option (list row);
  pending : option (list row);
  collation : pyval → Z;
  tie_breaks : list (row → Z)
}.

Inductive pg_cmd :=
| PgConnect
| PgCursor
| PgExecute (sql : string)
| PgFetchall
| PgCursorClose
| PgClose.

(** The value of the column [created_at] in a row that has the column. *)
Definition created_at (r : row) : option pyval :=
  list_to_map (M := gmap string pyval) r !! "created_at".

(** The same when it is not NULL. *)
Definition created_at_value (r : row) : option pyval :=
  match created_at r with
  | Some VNone | None => None
  | Some v => Some v
  end.

(** The place of a value in the order of its type: numbers and timestamps
    by their value, the others as the database collates them. *)
Definition rank (db : Postgres) (v : pyval) : Z :=
  match v with
  | VInt n => n
  | VDatetime t => t
  | _ => collation db v
  end.

(** [a] may come before [b] under [ORDER BY created_at DESC]: PostgreSQL
    puts the rows with a NULL first in descending order, then the others,
    greater values (later timestamps) first. *)
Definition descending_nulls_first (db : Postgres) (a b : row) : Prop :=
  match created_at_value a, created_at_value b with
  | None, _ => True
  | Some _, None => False
  | Some x, Some y => (rank db y ≤ rank db x)%Z
  end.

(** The order one statement sorts by: [descending_nulls_first], with the
    rows it finds equal ordered by the tie-break of that statement. *)
Definition sorts_before (db : Postgres) (tie : row → Z) (a b : row) : Prop :=
  match created_at_value a, created_at_value b with
  | None, None => (tie a ≤ tie b)%Z
  | None, Some _ => True
  | Some _, None => False
  | Some x, Some y =>
      (rank db y < rank db x)%Z ∨ (rank db x = rank db y ∧ (tie a ≤ tie b)%Z)
  end.

Global Instance sorts_before_dec db tie a b : Decision (sorts_before db tie a b).
Proof.
  unfold sorts_before.
  destruct (created_at_value a), (created_at_value b); apply _.
Defined.

(** The tie-break of the next statement. *)
Definition next_tie_break (db : Postgres) : row → Z :=
  hd (λ _, 0%Z) (tie_breaks db).

(** The two statements the service sends.  Any other text is outside the
    model and is answered with an error, as is the second statement when
    the table or, in one of its rows, the column is missing. *)
Definition run_query (sql : string) (db : Postgres) : option (list row) :=
  if decide (sql = "SELECT 1") then Some [[("?column?", VInt 1)]]
  else if decide (sql = "SELECT * FROM users ORDER BY created_at DESC LIMIT 10") then
    match users db with
    | Some rows =>
        if forallb (λ r, bool_decide (is_Some (created_at r))) rows
        then Some (take 10 (merge_sort (sorts_before db (next_tie_break db)) rows))
        else None
    | None => None
    end
  else None.

(** *** RabbitMQ *)

Record Queue := mkQueue {
  durable : bool;
  messages : list (string * Z)   (* body, delivery mode *)
}.

Record Broker := mkBroker {
  queues : gmap string Queue
}.

Inductive mq_cmd :=
| MqConnect
| MqChannel
| MqQueueDeclare (queue : string) (is_durable : bool)
| MqBasicPublish (exchange routing_key body : string) (delivery_mode : Z)
| MqChannelClose
| MqClose.

(** An AMQP short string holds at most 255 bytes; pika refuses to encode a
    longer name ([ShortStringTooLong]).  Strings are sequences of bytes, the
    UTF-8 encoding of the Python string. *)
Definition short_string (s : string) : bool :=
  Nat.leb (String.length s) 255.
Global Arguments short_string : simpl never.

(** [queue_declare]: creates the queue when absent; redeclaring with a
    different durability is refused by the broker. *)
Definition broker_declare (q : string) (d : bool) (b : Broker) : result unit * Broker :=
  match queues b !! q with
  | None => (Return tt, mkBroker (<[q := mkQueue d []]> (queues b)))
  | Some old =>
      if bool_decide (durable old = d) then (Return tt, b)
      else (Raise (ClientError "pika"), b)
  end.

(** [basic_publish]: the default exchange delivers to the queue named by
    the routing key and drops the message when there is none; the model has
    no other exchange. *)
Definition broker_publish (exchange rk body : string) (mode : Z) (b : Broker)
    : result unit * Broker :=
  if decide (exchange = "") then
    match queues b !! rk with
    | Some q =>
        (Return tt,
         mkBroker (<[rk := mkQueue (durable q) (messages q ++ [(body, mode)])]> (queues b)))
    | None => (Return tt, b)
    end
  else (Raise (ClientError "pika"), b).

(** ** The world of one service process *)

(** [datetime.utcnow()] reads the wall clock (microseconds since the
    epoch).  [upcoming] lists the readings of the next calls, in order and
    without any assumption on them; once exhausted the clock stands still. *)
Record Clock := mkClock {
  reading : Z;
  upcoming : list Z
}.

Record World := mkWorld {
  postgres : Backend Postgres pg_cmd;
  redis : Backend RedisServer redis_cmd;
  rabbitmq : Backend Broker mq_cmd;
  REQUEST_COUNT : gmap (string * string) nat;   (* Counter, by (method, endpoint) *)
  REQUEST_DURATION : list Z;                    (* Histogram: observed values *)
  clock : Clock;
  logger : list (string * exn)                  (* logger.error records *)
}.

Definition on_postgres {A} (m : M (Backend Postgres pg_cmd) A) : M World A :=
  λ w, let '(r, b) := m (postgres w) in
       (r, mkWorld b (redis w) (rabbitmq w) (REQUEST_COUNT w)
             (REQUEST_DURATION w) (clock w) (logger w)).

Definition on_redis {A} (m : M (Backend RedisServer redis_cmd) A) : M World A :=
  λ w, let '(r, b) := m (redis w) in
       (r, mkWorld (postgres w) b (rabbitmq w) (REQUEST_COUNT w)
             (REQUEST_DURATION w) (clock w) (logger w)).

Definition on_rabbitmq {A} (m : M (Backend Broker mq_cmd) A) : M World A :=
  λ w, let '(r, b) := m (rabbitmq w) in
       (r, mkWorld (postgres w) (redis w) b (REQUEST_COUNT w)
             (REQUEST_DURATION w) (clock w) (logger w)).

(** The value of a labelled counter; a label never used reads 0. *)
Definition count (c : gmap (string * string) nat) (method endpoint : string) : nat :=
  default 0 (c !! (method, endpoint)).

(** [REQUEST_COUNT.labels(method=..., endpoint=...).inc()] *)
Definition REQUEST_COUNT_inc (method endpoint : string) : M World unit :=
  modify (λ w,
    mkWorld (postgres w) (redis w) (rabbitmq w)
      (<[(method, endpoint) := S (count (REQUEST_COUNT w) method endpoint)]>
         (REQUEST_COUNT w))
      (REQUEST_DURATION w) (clock w) (logger w)).

(** [datetime.utcnow()] *)
Definition utcnow : M World Z :=
  λ w, let c := match upcoming (clock w) with
                | [] => clock w
                | t :: ts => mkClock t ts
                end in
       (Return (reading c),
        mkWorld (postgres w) (redis w) (rabbitmq w) (REQUEST_COUNT w)
          (REQUEST_DURATION w) c (logger w)).

(** [logger.error(f"{what}: {e}")] *)
Definition logger_error (what : string) (e : exn) : M World unit :=
  modify (λ w,
    mkWorld (postgres w) (redis w) (rabbitmq w) (REQUEST_COUNT w)
      (REQUEST_DURATION w) (clock w) (logger w ++ [(what, e)])).

(** ** Client calls *)

(** The objects the clients hand out.  They carry no state of their own in
    the model and, like the Python objects, are always truthy. *)

Inductive connection := Connection.
Inductive cursor := Cursor.
Inductive Redis := RedisClient.
Inductive BlockingConnection := BlockingConn.
Inductive channel := Channel.

(** psycopg2.  [psycopg2_connect] stands for the whole [psycopg2.connect(...)]
    expression, the reads of the environment included. *)
Definition psycopg2_connect : M World connection :=
  on_postgres (call PgConnect "psycopg2" (λ db, (Return Connection, db))).

Definition connection_cursor (_ : connection) : M World cursor :=
  on_postgres (call PgCursor "psycopg2"
    (λ db, (Return Cursor,
            mkPostgres (users db) None (collation db) (tie_breaks db)))).

Definition cursor_execute (_ : cursor) (sql : string) : M World unit :=
  on_postgres (call (PgExecute sql) "psycopg2"
    (λ db, match run_query sql db with
           | Some rows =>
               (Return tt,
                mkPostgres (users db) (Some rows) (collation db)
                  (tail (tie_breaks db)))
           | None => (Raise (ClientError "psycopg2"), db)
           end)).

Definition cursor_fetchall (_ : cursor) : M World (list row) :=
  on_postgres (call PgFetchall "psycopg2"
    (λ db, match pending db with
           | Some rows =>
               (Return rows,
                mkPostgres (users db) (Some []) (collation db) (tie_breaks db))
           | None => (Raise (ClientError "psycopg2"), db)
           end)).

Definition cursor_close (_ : cursor) : M World unit :=
  on_postgres (call PgCursorClose "psycopg2"
    (λ db, (Return tt,
            mkPostgres (users db) None (collation db) (tie_breaks db)))).

Definition connection_close (_ : connection) : M World unit :=
  on_postgres (call PgClose "psycopg2" (λ db, (Return tt, db))).

(** redis-py.  [redis_Redis] stands for the whole [redis.Redis(...)]
    expression: it opens no connection but may raise, for instance on
    [int(os.getenv("REDIS_PORT", ...))]. *)
Definition redis_Redis : M World Redis :=
  on_redis (call RedisNew "redis" (λ s, (Return RedisClient, s))).

Definition redis_ping (_ : Redis) : M World unit :=
  on_redis (call RedisPing "redis" (λ s, (Return tt, s))).

Definition redis_get (_ : Redis) (key : string) : M World (option string) :=
  on_redis (call (RedisGet key) "redis" (λ s, (Return (redis_lookup s key), s))).

Definition redis_set (_ : Redis) (key v : string) (ex : Z) : M World unit :=
  on_redis (call (RedisSet key v ex) "redis"
    (λ s, (Return tt, redis_store s key v ex))).

(** pika.  [pika_BlockingConnection] stands for the whole
    [pika.BlockingConnection(...)] expression. *)
Definition pika_BlockingConnection : M World BlockingConnection :=
  on_rabbitmq (call MqConnect "pika" (λ b, (Return BlockingConn, b))).

Definition connection_channel (_ : BlockingConnection) : M World channel :=
  on_rabbitmq (call MqChannel "pika" (λ b, (Return Channel, b))).

Definition queue_declare (_ : channel) (queue : string) (is_durable : bool)
    : M World unit :=
  on_rabbitmq (call (MqQueueDeclare queue is_durable) "pika"
    (λ b, if short_string queue
          then broker_declare queue is_durable b
          else (Raise (ClientError "pika"), b))).

Definition basic_publish (_ : channel) (exchange routing_key body : string)
    (delivery_mode : Z) : M World unit :=
  on_rabbitmq (call (MqBasicPublish exchange routing_key body delivery_mode) "pika"
    (λ b, if short_string exchange && short_string routing_key
          then broker_publish exchange routing_key body delivery_mode b
          else (Raise (ClientError "pika"), b))).

Definition channel_close (_ : channel) : M World unit :=
  on_rabbitmq (call MqChannelClose "pika" (λ b, (Return tt, b))).

Definition rabbitmq_close (_ : BlockingConnection) : M World unit :=
  on_rabbitmq (call MqClose "pika" (λ b, (Return tt, b))).

(** ** Connection accessors *)

(** Each returns the connection, or logs and returns [None] when anything
    in its [try] block raises. *)

Definition get_db_connection : M World (option connection) :=
  try_except
    (do conn <- psycopg2_connect;
     ret (Some conn))
    (λ e, logger_error "Database connection error" e >> ret None).

Definition get_redis_connection : M World (option Redis) :=
  try_except
    (do r <- redis_Redis;
     redis_ping r >>
     ret (Some r))
    (λ e, logger_error "Redis connection error" e >> ret None).

Definition get_rabbitmq_connection : M World (option BlockingConnection) :=
  try_except
    (do connection <- pika_BlockingConnection;
     ret (Some connection))
    (λ e, logger_error "RabbitMQ connection error" e >> ret None).

(** ** Pydantic models and responses *)

Module HealthResponse.
Record t := mk {
  status : string;
  message : string;
  timestamp : string;
  version : string;
  services : gmap string string
}.
End HealthResponse.

Module MessageRequest.
Record t := mk {
  message : string;
  priority : string
}.

(** Validation of a request body: [priority] defaults to ["normal"]; any
    string is accepted for both fields. *)
Definition parse (message : string) (priority : option string) : t :=
  mk message (default "normal" priority).
End MessageRequest.

Module MessageResponse.
Record t := mk {
  id : string;
  message : string;
  status : string;
  timestamp : string
}.
End MessageResponse.

(** What a handler hands back to FastAPI. *)
Inductive payload :=
| Json (v : pyval)
| Health (h : HealthResponse.t)
| Sent (m : MessageResponse.t)
| Exposition (counters : gmap (string * string) nat) (durations : list Z).

(** The HTTP status FastAPI answers with: 200 for a returned value, the
    status of a raised [HTTPException], 500 for any other exception. *)
Definition status_code {A} (r : result A) : Z :=
  match r with
  | Return _ => 200
  | Raise (HTTPException s _) => s
  | Raise (ClientError _) => 500
  end.

(** Pure library functions the handlers call on their data; the service
    does not depend on how they format. *)
Class Platform := {
  isoformat : Z → string;          (* datetime.isoformat() *)
  format_timestamp : Z → string;   (* str(datetime.timestamp()) *)
  json_dumps : pyval → string      (* json.dumps *)
}.

(** ** Request handlers *)

Section handlers.
Context `{Platform}.

Definition root : M World pyval :=
  REQUEST_COUNT_inc "GET" "/" >>
  ret (VDict [("message", VStr "Kubernetes Homelab API"); ("version", VStr "1.0.0")]).

(** The frame of [health_check]: its local dictionary [services], which is
    updated in place inside [try] blocks, next to the world. *)
Record Frame := mkFrame {
  services : gmap string string;
  world : World
}.

Definition global {A} (m : M World A) : M Frame A :=
  λ f, let '(r, w) := m (world f) in (r, mkFrame (services f) w).

(** [services[k] = v] *)
Definition services_setitem (k v : string) : M Frame unit :=
  modify (λ f, mkFrame (<[k := v]> (services f)) (world f)).

Definition with_services {A} (init : gmap string string) (body : M Frame A)
    : M World A :=
  λ w, let '(r, f) := body (mkFrame init w) in (r, world f).

(** [with enter as x: body x] *)
Definition with_ {S X A} (enter : M S X) (exit : X → M S unit) (body : X → M S A)
    : M S A :=
  do x <- enter;
  finally (body x) (exit x).

(** The three probes of [health_check], in the order of its body. *)

(* Check PostgreSQL *)
Definition check_postgresql : M Frame unit :=
  do db_conn <- global get_db_connection;
  match db_conn with
  | Some db_conn =>
      try_except
        (with_ (global (connection_cursor db_conn))
               (λ cursor, global (cursor_close cursor))
               (λ cursor,
                  global (cursor_execute cursor "SELECT 1") >>
                  services_setitem "postgresql" "connected") >>
         global (connection_close db_conn))
        (λ e, global (logger_error "PostgreSQL health check failed" e))
  | None => ret tt
  end.

(* Check Redis *)
Definition check_redis : M Frame unit :=
  do redis_conn <- global get_redis_connection;
  match redis_conn with
  | Some redis_conn =>
      try_except
        (global (redis_ping redis_conn) >>
         services_setitem "redis" "connected")
        (λ e, global (logger_error "Redis health check failed" e))
  | None => ret tt
  end.

(* Check RabbitMQ *)
Definition check_rabbitmq : M Frame unit :=
  do rabbitmq_conn <- global get_rabbitmq_connection;
  match rabbitmq_conn with
  | Some rabbitmq_conn =>
      try_except
        (global (rabbitmq_close rabbitmq_conn) >>
         services_setitem "rabbitmq" "connected")
        (λ e, global (logger_error "RabbitMQ health check failed" e))
  | None => ret tt
  end.

Definition health_check : M World HealthResponse.t :=
  REQUEST_COUNT_inc "GET" "/health" >>
  with_services
    (<["postgresql" := "disconnected"]>
       (<["redis" := "disconnected"]>
          (<["rabbitmq" := "disconnected"]> ∅)))
    (check_postgresql >>
     check_redis >>
     check_rabbitmq >>
     do now <- global utcnow;
     do services <- gets services;
     ret (HealthResponse.mk "healthy" "API is running" (isoformat now) "1.0.0"
            services)).

Definition metrics : M World payload :=
  REQUEST_COUNT_inc "GET" "/metrics" >>
  do counters <- gets REQUEST_COUNT;
  do durations <- gets REQUEST_DURATION;
  ret (Exposition counters durations).

Definition send_message (message_request : MessageRequest.t)
    : M World MessageResponse.t :=
  REQUEST_COUNT_inc "POST" "/messages" >>
  do rabbitmq_conn <- get_rabbitmq_connection;
  match rabbitmq_conn with
  | None => raise (HTTPException 503 "RabbitMQ service unavailable")
  | Some rabbitmq_conn =>
      try_except
        (do channel <- connection_channel rabbitmq_conn;
         let queue_name := "messages_" +:+ MessageRequest.priority message_request in
         (* Declare queue *)
         queue_declare channel queue_name true >>
         (* Publish message *)
         do t_id <- utcnow;
         let message_id := "msg_" +:+ format_timestamp t_id in
         do t_body <- utcnow;
         let message_body :=
           VDict [("id", VStr message_id);
                  ("message", VStr (MessageRequest.message message_request));
                  ("priority", VStr (MessageRequest.priority message_request));
                  ("timestamp", VStr (isoformat t_body))] in
         basic_publish channel "" queue_name (json_dumps message_body) 2 >>
         channel_close channel >>
         rabbitmq_close rabbitmq_conn >>
         do t_resp <- utcnow;
         ret (MessageResponse.mk message_id
                (MessageRequest.message message_request) "sent"
                (isoformat t_resp)))
        (λ e, logger_error "Failed to send message" e >>
              raise (HTTPException 500 "Failed to send message"))
  end.

Definition get_cache (key : string) : M World pyval :=
  REQUEST_COUNT_inc "GET" "/cache" >>
  do redis_conn <- get_redis_connection;
  match redis_conn with
  | None => raise (HTTPException 503 "Redis service unavailable")
  | Some redis_conn =>
      try_except
        (do value <- redis_get redis_conn key;
         match value with
         | None => raise (HTTPException 404 "Key not found")
         | Some value => ret (VDict [("key", VStr key); ("value", VStr value)])
         end)
        (λ e, logger_error "Failed to get cache value" e >>
              raise (HTTPException 500 "Failed to get cache value"))
  end.

Definition set_cache (key value : string) : M World pyval :=
  REQUEST_COUNT_inc "POST" "/cache" >>
  do redis_conn <- get_redis_connection;
  match redis_conn with
  | None => raise (HTTPException 503 "Redis service unavailable")
  | Some redis_conn =>
      try_except
        (redis_set redis_conn key value 3600 >>   (* Expire in 1 hour *)
         ret (VDict [("key", VStr key); ("value", VStr value); ("status", VStr "set")]))
        (λ e, logger_error "Failed to set cache value" e >>
              raise (HTTPException 500 "Failed to set cache value"))
  end.

Definition get_users : M World pyval :=
  REQUEST_COUNT_inc "GET" "/database/users" >>
  do db_conn <- get_db_connection;
  match db_conn with
  | None => raise (HTTPException 503 "Database service unavailable")
  | Some db_conn =>
      try_except
        (do users <-
           with_ (connection_cursor db_conn) cursor_close
             (λ cursor,
                cursor_execute cursor
                  "SELECT * FROM users ORDER BY created_at DESC LIMIT 10" >>
                cursor_fetchall cursor);
         connection_close db_conn >>
         ret (VDict [("users", VList (map VDict users))]))
        (λ e, logger_error "Failed to get users" e >>
              raise (HTTPException 500 "Failed to get users"))
  end.

(** ** Routing *)

Inductive request :=
| GET_root
| GET_health
| GET_metrics
| POST_messages (message_request : MessageRequest.t)
| GET_cache (key : string)
| POST_cache (key value : string)
| GET_database_users.

Definition fmap_M {S A B} (f : A → B) (m : M S A) : M S B :=
  do a <- m; ret (f a).

(** The route table built by the [@app.get] and [@app.post] decorators. *)
Definition handle (rq : request) : M World payload :=
  match rq with
  | GET_root => fmap_M Json root
  | GET_health => fmap_M Health health_check
  | GET_metrics => metrics
  | POST_messages message_request => fmap_M Sent (send_message message_request)
  | GET_cache key => fmap_M Json (get_cache key)
  | POST_cache key value => fmap_M Json (set_cache key value)
  | GET_database_users => fmap_M Json get_users
  end.

(** The labels under which each route counts its requests. *)
Definition labels (rq : request) : string * string :=
  match rq with
  | GET_root => ("GET", "/")
  | GET_health => ("GET", "/health")
  | GET_metrics => ("GET", "/metrics")
  | POST_messages _ => ("POST", "/messages")
  | GET_cache _ => ("GET", "/cache")
  | POST_cache _ _ => ("POST", "/cache")
  | GET_database_users => ("GET", "/database/users")
  end.

End handlers.

(** ** Auxiliary definitions for the statements *)

(** [m] leaves the component [proj] of the state as it found it, whether it
    returns or raises. *)
Definition Preserves {S A X} (proj : S → X) (m : M S A) : Prop :=
  ∀ s, proj (m s).2 = proj s.

(** The two collectors. *)
Definition collectors (w : World) : gmap (string * string) nat * list Z :=
  (REQUEST_COUNT w, REQUEST_DURATION w).

(** The reading the next [utcnow] returns. *)
Definition next_reading (c : Clock) : Z :=
  match upcoming c with
  | [] => reading c
  | t :: _ => t
  end.

(** Client calls that cannot change what Redis stores. *)
Definition read_only (c : redis_cmd) : bool :=
  match c with
  | RedisNew | RedisPing | RedisGet _ => true
  | RedisSet _ _ _ => false
  end.

(** The order the specification words for the users: newest first, a row
    without a creation time being newer than none. *)
Definition newest_first (db : Postgres) (a b : row) : Prop :=
  match created_at_value a, created_at_value b with
  | _, None => True
  | None, Some _ => False
  | Some x, Some y => (rank db y ≤ rank db x)%Z
  end.

(** The messages already waiting in a queue. *)
Definition waiting (b : Broker) (q : string) : list (string * Z) :=
  match queues b !! q with
  | Some old => messages old
  | None => []
  end.

(** How [health_check] words the outcome of a probe. *)
Definition connectivity (ok : bool) : string :=
  if ok then "connected" else "disconnected".

(** [m] raises nothing but exceptions in [P]. *)
Definition Raises {S A} (P : exn → Prop) (m : M S A) : Prop :=
  ∀ s, match (m s).1 with
       | Return _ => True
       | Raise e => P e
       end.

(** The errors each route can answer with. *)
Definition errors_of (rq : request) : list exn :=
  match rq with
  | GET_root | GET_health | GET_metrics => []
  | POST_messages _ =>
      [HTTPException 503 "RabbitMQ service unavailable";
       HTTPException 500 "Failed to send message"]
  | GET_cache _ =>
      [HTTPException 503 "Redis service unavailable";
       HTTPException 500 "Failed to get cache value"]
  | POST_cache _ _ =>
      [HTTPException 503 "Redis service unavailable";
       HTTPException 500 "Failed to set cache value"]
  | GET_database_users =>
      [HTTPException 503 "Database service unavailable";
       HTTPException 500 "Failed to get users"]
  end.

(** The requests of a list handled one after the other: the handlers are
    coroutines without an [await], so each runs to its end before the event
    loop starts the next. *)
Fixpoint serve `{Platform} (rqs : list request) (w : World) : World :=
  match rqs with
  | [] => w
  | rq :: rqs => serve rqs (handle rq w).2
  end.

(** How many requests of a list count under the given labels. *)
Definition requests_with (method endpoint : string) (rqs : list request) : nat :=
  length (filter (λ rq, labels rq = (method, endpoint)) rqs).

(** The data the three backends hold for their users. *)
Definition stored (w : World)
    : option (list row) * RedisServer * gmap string Queue :=
  (users (server (postgres w)), server (redis w), queues (server (rabbitmq w))).

(** What a request may leave in the log, given its outcome: nothing when
    it returns, one record when it raises. *)
Definition logs_by_outcome {A} (before : list (string * exn))
    (out : result A * World) : Prop :=
  match out.1 with
  | Return _ => logger out.2 = before
  | Raise _ => ∃ what e, logger out.2 = before ++ [(what, e)]
  end.

(** The calls to the broker of a [send_message] that meets no fault. *)
Definition publish_script (q body : string) : list mq_cmd :=
  [MqConnect; MqChannel; MqQueueDeclare q true;
   MqBasicPublish "" q body 2; MqChannelClose; MqClose].

(** *** A platform and worlds to run the handlers on *)

(** Decimal renderings of the clock reading and a plain rendering of
    values, without escaping. *)
Definition plain_dumps : pyval → string :=
  fix dumps (v : pyval) : string :=
    match v with
    | VNone => "null"
    | VInt n => pretty n
    | VStr s => "'" +:+ s +:+ "'"
    | VDatetime t => pretty t
    | VList l =>
        "[" +:+ (fix items (l : list pyval) : string :=
                   match l with
                   | [] => ""
                   | x :: l' => dumps x +:+ "," +:+ items l'
                   end) l +:+ "]"
    | VDict d =>
        "{" +:+ (fix items (d : list (string * pyval)) : string :=
                   match d with
                   | [] => ""
                   | (k, x) :: d' => "'" +:+ k +:+ "':" +:+ dumps x +:+ "," +:+ items d'
                   end) d +:+ "}"
    end.

Definition decimal_platform : Platform :=
  {| isoformat := λ t, pretty t;
     format_timestamp := λ t, pretty t;
     json_dumps := plain_dumps |}.

(** Every backend up and empty of faults; three users, one without a
    creation time; a clock that stands still. *)
Definition three_users : list row :=
  [ [("id", VInt 1); ("created_at", VDatetime 1700000005000000)];
    [("id", VInt 2); ("created_at", VDatetime 1700000009000000)];
    [("id", VInt 3); ("created_at", VNone)] ].

Definition world_up : World :=
  mkWorld
    (mkBackend (mkPostgres (Some three_users) None (λ _, 0%Z) []) [] [])
    (mkBackend (mkRedis ∅ 0) [] [])
    (mkBackend (mkBroker ∅) [] [])
    ∅ [] (mkClock 1700000000000000 []) [].

(** The same world with a wall clock that is set back between two
    requests: the fourth reading repeats the first. *)
Definition world_clock_set_back : World :=
  mkWorld
    (mkBackend (mkPostgres (Some three_users) None (λ _, 0%Z) []) [] [])
    (mkBackend (mkRedis ∅ 0) [] [])
    (mkBackend (mkBroker ∅) [] [])
    ∅ []
    (mkClock 1700000000000000
       [1700000000000100; 1700000000000150; 1700000000000900;
        1700000000000100; 1700000000000140; 1700000000000870]%Z)
    [].

(** Two users created at the same time, in a database that returns such
    rows in the order of the table for the first statement and by
    descending [id] for the second; and users whose [created_at] is a
    number. *)
Definition by_descending_id (r : row) : Z :=
  match list_to_map (M := gmap string pyval) r !! "id" with
  | Some (VInt n) => (- n)%Z
  | _ => 0%Z
  end.

Definition world_tied : World :=
  mkWorld
    (mkBackend
       (mkPostgres
          (Some [ [("id", VInt 1); ("created_at", VDatetime 1700000005000000)];
                  [("id", VInt 2); ("created_at", VDatetime 1700000005000000)] ])
          None (λ _, 0%Z) [λ _, 0%Z; by_descending_id])
       [] [])
    (mkBackend (mkRedis ∅ 0) [] [])
    (mkBackend (mkBroker ∅) [] [])
    ∅ [] (mkClock 1700000000000000 []) [].

Definition world_numbered : World :=
  mkWorld
    (mkBackend
       (mkPostgres
          (Some [ [("id", VInt 1); ("created_at", VInt 10)];
                  [("id", VInt 2); ("created_at", VInt 30)];
                  [("id", VInt 3); ("created_at", VInt 20)] ])
          None (λ _, 0%Z) [])
       [] [])
    (mkBackend (mkRedis ∅ 0) [] [])
    (mkBackend (mkBroker ∅) [] [])
    ∅ [] (mkClock 1700000000000000 []) [].


(** A Redis that already holds a value under [foo], without deadline. *)
Definition world_old_value : World :=
  mkWorld
    (mkBackend (mkPostgres (Some three_users) None (λ _, 0%Z) []) [] [])
    (mkBackend (mkRedis (<["foo" := ("old", None)]> ∅) 0) [] [])
    (mkBackend (mkBroker ∅) [] [])
    ∅ [] (mkClock 1700000000000000 []) [].

(** The same world with every connection attempt failing. *)
Definition world_down : World :=
  mkWorld
    (mkBackend (mkPostgres (Some three_users) None (λ _, 0%Z) []) [true] [])
    (mkBackend (mkRedis ∅ 0) [true] [])
    (mkBackend (mkBroker ∅) [true] [])
    ∅ [] (mkClock 1700000000000000 []) [].


Definition world_query_fails : World :=
  mkWorld
    (mkBackend (mkPostgres (Some three_users) None (λ _, 0%Z) []) [false; false; true] [])
    (mkBackend (mkRedis ∅ 0) [] [])
    (mkBackend (mkBroker ∅) [false; true] [])
    ∅ [] (mkClock 1700000000000000 []) [].

(** A Redis that holds the empty string under a key without deadline. *)
Definition world_blank_value : World :=
  mkWorld
    (mkBackend (mkPostgres (Some three_users) None (λ _, 0%Z) []) [] [])
    (mkBackend (mkRedis (<["blank" := ("", None)]> ∅) 0) [] [])
    (mkBackend (mkBroker ∅) [] [])
    ∅ [] (mkClock 1700000000000000 []) [].

(** * Properties *)

(** ** The oracle *)

Lemma fault_free_S n fs :
  fault_free (S n) fs = negb (hd false fs) && fault_free n (tail fs).
Proof. destruct fs; [destruct n|]; reflexivity. Qed.

Lemma fault_free_0 fs : fault_free 0 fs = true.
Proof. reflexivity. Qed.

(** ** Frame rules *)

Section frame.
Context {S X : Type} (proj : S → X).

Lemma Preserves_ret {A} (a : A) : Preserves proj (ret a).
Proof. by intros s. Qed.

Lemma Preserves_raise {A} e : Preserves proj (raise (A := A) e).
Proof. by intros s. Qed.

Lemma Preserves_gets {A} (f : S → A) : Preserves proj (gets f).
Proof. by intros s. Qed.

Lemma Preserves_bind {A B} (m : M S A) (k : A → M S B) :
  Preserves proj m → (∀ a, Preserves proj (k a)) → Preserves proj (bind m k).
Proof.
  intros Hm Hk s. unfold bind. specialize (Hm s).
  destruct (m s) as [[a|e] s']; simpl in *; [|done].
  by rewrite Hk.
Qed.

Lemma Preserves_try_except {A} (body : M S A) handler :
  Preserves proj body → (∀ e, Preserves proj (handler e)) →
  Preserves proj (try_except body handler).
Proof.
  intros Hm Hk s. unfold try_except. specialize (Hm s).
  destruct (body s) as [[a|e] s']; simpl in *; [done|].
  by rewrite Hk.
Qed.

Lemma Preserves_finally {A} (body : M S A) exit :
  Preserves proj body → Preserves proj exit → Preserves proj (finally body exit).
Proof.
  intros Hm Hk s. unfold finally. specialize (Hm s).
  destruct (body s) as [[a|e] s']; simpl in *;
    specialize (Hk s'); destruct (exit s') as [[[]|e'] s'']; simpl in *; congruence.
Qed.

Lemma Preserves_with_ {Y A} (enter : M S Y) exit (body : Y → M S A) :
  Preserves proj enter → (∀ y, Preserves proj (exit y)) →
  (∀ y, Preserves proj (body y)) → Preserves proj (with_ enter exit body).
Proof. intros. apply Preserves_bind; [done|]. intros y. by apply Preserves_finally. Qed.
End frame.

Lemma Preserves_global {X A} (proj : World → X) (m : M World A) :
  Preserves proj m → Preserves (proj ∘ world) (global m).
Proof.
  intros Hm [sv w]. unfold global. simpl. specialize (Hm w).
  by destruct (m w) as [r w'].
Qed.

Lemma Preserves_with_services {X A} (proj : World → X) init (body : M Frame A) :
  Preserves (proj ∘ world) body → Preserves proj (with_services init body).
Proof.
  intros Hm w. unfold with_services. specialize (Hm (mkFrame init w)).
  by destruct (body (mkFrame init w)) as [r f].
Qed.

Lemma Preserves_services_setitem {X} (proj : World → X) k v :
  Preserves (proj ∘ world) (services_setitem k v).
Proof. by intros f. Qed.

(** The collectors are out of reach of the clients, the clock and the
    logger. *)
Lemma collectors_on_postgres {A} (m : M _ A) : Preserves collectors (on_postgres m).
Proof. intros w. unfold on_postgres. by destruct (m (postgres w)). Qed.

Lemma collectors_on_redis {A} (m : M _ A) : Preserves collectors (on_redis m).
Proof. intros w. unfold on_redis. by destruct (m (redis w)). Qed.

Lemma collectors_on_rabbitmq {A} (m : M _ A) : Preserves collectors (on_rabbitmq m).
Proof. intros w. unfold on_rabbitmq. by destruct (m (rabbitmq w)). Qed.

Lemma collectors_utcnow : Preserves collectors utcnow.
Proof. by intros w. Qed.

Lemma collectors_logger_error what e : Preserves collectors (logger_error what e).
Proof. by intros w. Qed.

(** What Redis stores is out of reach of everything but [redis_set]. *)
Lemma redis_server_call {A} c origin (f : RedisServer → result A) :
  Preserves (server ∘ redis) (on_redis (call c origin (λ s, (f s, s)))).
Proof. intros w. unfold on_redis, call. simpl. by destruct (hd false _). Qed.

Lemma redis_server_count method endpoint :
  Preserves (server ∘ redis) (REQUEST_COUNT_inc method endpoint).
Proof. by intros w. Qed.

Lemma redis_server_logger_error what e :
  Preserves (server ∘ redis) (logger_error what e).
Proof. by intros w. Qed.

Create HintDb frame discriminated.

#[local] Hint Resolve Preserves_ret Preserves_raise Preserves_gets
  Preserves_services_setitem collectors_on_postgres collectors_on_redis
  collectors_on_rabbitmq collectors_utcnow collectors_logger_error
  redis_server_count redis_server_logger_error : frame.

(** Walks through a handler body, one construct at a time. *)
Ltac frame_step :=
  lazymatch goal with
  | |- Preserves _ (bind _ _) => apply Preserves_bind; [|intros ?]
  | |- Preserves _ (try_except _ _) => apply Preserves_try_except; [|intros ?]
  | |- Preserves _ (with_ _ _ _) => apply Preserves_with_; [|intros ?|intros ?]
  | |- Preserves _ (with_services _ _) => apply Preserves_with_services
  | |- Preserves _ (global _) => apply Preserves_global
  | |- Preserves _ (match ?x with _ => _ end) => destruct x
  | |- Preserves _ _ => solve [eauto with frame]
  end.

Ltac frame := repeat frame_step.

(** ** Evaluating handlers *)

(** Unfolds the client calls and the control operators, so that a handler
    applied to a world reduces up to the next question to an oracle. *)
Ltac unfold_calls :=
  unfold get_db_connection, get_redis_connection, get_rabbitmq_connection,
    psycopg2_connect, connection_cursor, cursor_execute, cursor_fetchall,
    cursor_close, connection_close, redis_Redis, redis_ping, redis_get,
    redis_set, pika_BlockingConnection, connection_channel, queue_declare,
    basic_publish, channel_close, rabbitmq_close, with_, finally, try_except,
    fmap_M, bind, ret, raise, gets, modify, utcnow, logger_error,
    REQUEST_COUNT_inc, on_postgres, on_redis, on_rabbitmq, call in *.

(** Unfolds the accessors and the client calls only. *)
Ltac unfold_clients :=
  unfold get_db_connection, get_redis_connection, get_rabbitmq_connection,
    psycopg2_connect, connection_cursor, cursor_execute, cursor_fetchall,
    cursor_close, connection_close, redis_Redis, redis_ping, redis_get,
    redis_set, pika_BlockingConnection, connection_channel, queue_declare,
    basic_publish, channel_close, rabbitmq_close in *.

(** Answers the next question to an oracle both ways. *)
Ltac ask_oracle :=
  match goal with
  | |- context [hd false ?fs] =>
      let F := fresh "F" in destruct (hd false fs) eqn:F; cbn in *
  end.

(** Turns [fault_free (S n) fs = true] into the answers it fixes. *)
Ltac split_fault_free H :=
  repeat (rewrite fault_free_S in H;
          let F := fresh "F" in
          apply andb_prop in H as [F H]; apply negb_true_iff in F).

Lemma append_inj_l (p a b : string) : p +:+ a = p +:+ b → a = b.
Proof. induction p as [|c p IH]; simpl; [done|]. intros [=]. auto. Qed.

(** ** Metrics *)

Section metrics_facts.
Context `{Platform}.

(** A handler that counts itself first and then leaves the collectors
    alone ends with exactly one increment of its own labelled counter. *)
Lemma counted_once {A} method endpoint (rest : M World A) w :
  Preserves collectors rest →
  collectors ((REQUEST_COUNT_inc method endpoint >> rest) w).2 =
  (<[(method, endpoint) := S (count (REQUEST_COUNT w) method endpoint)]>
     (REQUEST_COUNT w),
   REQUEST_DURATION w).
Proof.
  intros Hrest. unfold bind at 1. unfold REQUEST_COUNT_inc at 1, modify at 1.
  by rewrite Hrest.
Qed.

Lemma fmap_M_state {A B} (f : A → B) (m : M World A) w :
  (fmap_M f m w).2 = (m w).2.
Proof. unfold fmap_M, bind, ret. by destruct (m w) as [[a|e] w']. Qed.

Lemma collectors_handle rq w :
  collectors (handle rq w).2 =
  (<[labels rq := S (count (REQUEST_COUNT w) (labels rq).1 (labels rq).2)]>
     (REQUEST_COUNT w),
   REQUEST_DURATION w).
Proof.
  destruct rq; unfold handle, labels; rewrite ?fmap_M_state;
    [unfold root
    | unfold health_check, check_postgresql, check_redis, check_rabbitmq
    | unfold metrics | unfold send_message
    | unfold get_cache | unfold set_cache | unfold get_users];
    apply counted_once; unfold_clients; frame.
Qed.

End metrics_facts.

(** C3 (as amended): every invocation of any of the seven handlers,
    whatever its outcome, adds exactly one to the request counter labelled
    with the route's method and endpoint and changes no other counter, so no
    counter ever decreases; the latency histogram is never observed and
    stays as it was. *)
Theorem request_counted_histogram_untouched `{Platform} (rq : request) (w : World) :
  let w' := (handle rq w).2 in
  REQUEST_COUNT w' =
    <[labels rq := S (count (REQUEST_COUNT w) (labels rq).1 (labels rq).2)]>
      (REQUEST_COUNT w)
  ∧ count (REQUEST_COUNT w') (labels rq).1 (labels rq).2 =
      S (count (REQUEST_COUNT w) (labels rq).1 (labels rq).2)
  ∧ (∀ method endpoint,
       count (REQUEST_COUNT w) method endpoint
       ≤ count (REQUEST_COUNT w') method endpoint)
  ∧ REQUEST_DURATION w' = REQUEST_DURATION w.
Proof.
  intros w'. pose proof (collectors_handle rq w) as Hc.
  unfold collectors in Hc. fold w' in Hc. injection Hc as Hcount Hdur.
  split_and!; [done| | |done].
  - unfold count at 1. rewrite Hcount. destruct (labels rq) as [m e].
    by rewrite lookup_insert_eq.
  - intros m e. unfold count at 2. rewrite Hcount.
    destruct (decide (labels rq = (m, e))) as [->|Hne].
    + rewrite lookup_insert_eq. simpl. lia.
    + rewrite lookup_insert_ne by done. done.
Qed.

(** C3, as stated, fails: a request to [/] leaves the latency histogram
    with the observations it had, not one more. *)
Lemma histogram_not_incremented :
  let w' := (@handle decimal_platform GET_root world_up).2 in
  length (REQUEST_DURATION w') ≠ S (length (REQUEST_DURATION world_up))
  ∧ count (REQUEST_COUNT w') "GET" "/" = 1.
Proof. vm_compute. split; [discriminate|reflexivity]. Qed.

(** ** The cache handlers *)

Lemma redis_server_get_redis_connection :
  Preserves (server ∘ redis) get_redis_connection.
Proof.
  unfold get_redis_connection, redis_Redis, redis_ping.
  frame; apply redis_server_call.
Qed.

Lemma redis_server_get_cache key : Preserves (server ∘ redis) (get_cache key).
Proof.
  unfold get_cache. pose proof redis_server_get_redis_connection.
  frame; unfold redis_get; apply (redis_server_call _ _ (λ s, Return _)).
Qed.

(** The Redis calls of one [get_cache]: the two of the accessor and, when
    they succeed, the [GET]. *)
Lemma get_cache_calls key w :
  ∃ cmds, calls (redis (get_cache key w).2) = calls (redis w) ++ cmds
          ∧ (cmds = [RedisNew] ∨ cmds = [RedisNew; RedisPing]
             ∨ cmds = [RedisNew; RedisPing; RedisGet key]).
Proof.
  destruct w as [pg [s fs tr] mq cnt dur clk lg].
  unfold get_cache. unfold_calls. cbn.
  ask_oracle; [eexists; split; [reflexivity|auto]|].
  ask_oracle; [eexists; split; [by rewrite <- app_assoc|auto]|].
  ask_oracle; [eexists; split; [by rewrite <- !app_assoc|auto]|].
  destruct (redis_lookup s key); cbn;
    (eexists; split; [by rewrite <- !app_assoc|auto]).
Qed.

(** C10: handling a cache read leaves what Redis stores, every key's value
    and expiry and the server time, unchanged, whatever the outcome; the
    calls it makes to Redis are the connection's construction and ping and
    the [GET], all read-only. *)
Theorem get_cache_reads_only (key : string) (w : World) :
  let w' := (get_cache key w).2 in
  server (redis w') = server (redis w)
  ∧ ∃ cmds, calls (redis w') = calls (redis w) ++ cmds
            ∧ forallb read_only cmds = true.
Proof.
  intros w'. split; [apply (redis_server_get_cache key w)|].
  destruct (get_cache_calls key w) as (cmds & Hc & Hk).
  exists cmds. split; [done|]. by destruct Hk as [->|[->| ->]].
Qed.

(** With the connection up, [get_cache] answers by what [GET] finds, unless
    [GET] itself raises. *)
Lemma get_cache_connected key w :
  fault_free 2 (faults (redis w)) = true →
  (get_cache key w).1 =
    if hd false (tail (tail (faults (redis w))))
    then Raise (HTTPException 500 "Failed to get cache value")
    else match redis_lookup (server (redis w)) key with
         | Some value => Return (VDict [("key", VStr key); ("value", VStr value)])
         | None => Raise (HTTPException 500 "Failed to get cache value")
         end.
Proof.
  destruct w as [pg [s fs tr] mq cnt dur clk lg]. cbn [redis faults server].
  intros Hf. split_fault_free Hf.
  unfold get_cache. unfold_calls. cbn. rewrite F. cbn. rewrite F0. cbn.
  destruct (hd false (tail (tail fs))); cbn; [done|].
  by destruct (redis_lookup s key).
Qed.

(** A [set_cache] that returns made its three Redis calls without a fault,
    returned the echo and stored the value with its deadline. *)
Lemma set_cache_returns key value w r w' :
  set_cache key value w = (Return r, w') →
  r = VDict [("key", VStr key); ("value", VStr value); ("status", VStr "set")]
  ∧ server (redis w') = redis_store (server (redis w)) key value 3600
  ∧ calls (redis w') = calls (redis w) ++ [RedisNew; RedisPing; RedisSet key value 3600].
Proof.
  destruct w as [pg [s fs tr] mq cnt dur clk lg].
  unfold set_cache. unfold_calls. cbn.
  ask_oracle; [done|]. ask_oracle; [done|]. ask_oracle; [done|].
  intros [= <- <-]. cbn. by rewrite <- !app_assoc.
Qed.

Lemma redis_lookup_fresh s key value (ex : Z) s' :
  store s' = store (redis_store s key value ex) →
  (now s ≤ now s' < now s + ex * 1000)%Z →
  redis_lookup s' key = Some value.
Proof.
  intros Hst Hnow. unfold redis_lookup. rewrite Hst. simpl.
  rewrite lookup_insert_eq.
  destruct (Z.ltb_spec (now s + ex * 1000) (now s')); [lia|done].
Qed.

(** C1 (violated by the code): with the cache connection up, a read of a
    key that is absent from the cache, never written or expired, is answered
    with the generic internal error 500 and not with 404.  The handler does
    raise the 404 exception, but inside the [try] block whose
    [except Exception] catches it and raises the 500 one. *)
Theorem get_cache_absent_key_is_500 (key : string) (w : World) :
  fault_free 2 (faults (redis w)) = true →
  redis_lookup (server (redis w)) key = None →
  (get_cache key w).1 = Raise (HTTPException 500 "Failed to get cache value")
  ∧ status_code (get_cache key w).1 = 500%Z
  ∧ status_code (get_cache key w).1 ≠ 404%Z.
Proof.
  intros Hf Hk. rewrite (get_cache_connected key w Hf), Hk.
  by destruct (hd false _).
Qed.

Lemma get_cache_absent_key_is_500_witness :
  (get_cache "foo" world_up).1
    = Raise (HTTPException 500 "Failed to get cache value")
  ∧ status_code (get_cache "foo" world_up).1 = 500%Z
  ∧ status_code (get_cache "foo" world_up).1 ≠ 404%Z.
Proof.
  apply (get_cache_absent_key_is_500 "foo" world_up);
    reflexivity.
Defined.

Lemma fault_free_drop n m fs :
  fault_free (n + m) fs = fault_free n fs && fault_free m (drop n fs).
Proof.
  revert fs. induction n as [|n IH]; intros fs.
  - by rewrite drop_0.
  - simpl. rewrite !fault_free_S, IH. destruct fs as [|f fs]; simpl.
    + by rewrite drop_nil.
    + by rewrite andb_assoc.
Qed.

(** With Redis answering its three calls, [set_cache] returns and has used
    up three answers of the oracle. *)
Lemma set_cache_fault_free key value w :
  fault_free 3 (faults (redis w)) = true →
  ∃ w', set_cache key value w =
          (Return (VDict [("key", VStr key); ("value", VStr value);
                          ("status", VStr "set")]), w')
        ∧ server (redis w') = redis_store (server (redis w)) key value 3600
        ∧ faults (redis w') = drop 3 (faults (redis w)).
Proof.
  destruct w as [pg [s fs tr] mq cnt dur clk lg]. cbn [redis faults server].
  intros Hf. split_fault_free Hf.
  unfold set_cache. unfold_calls. cbn.
  rewrite F. cbn. rewrite F0. cbn. rewrite F1. cbn.
  eexists. split; [reflexivity|]. cbn. split; [done|].
  by destruct fs as [|? [|? [|? ?]]].
Qed.

(** C7: whatever the key holds, nothing or a value with or without a
    deadline, [POST /cache/{key}] succeeds as soon as Redis answers its
    three calls; and a [POST /cache/{key}] that succeeds returns the echo
    [{"key": key, "value": value, "status": "set"}] and has issued
    [SET key value EX 3600]: the key now holds the value with a deadline one
    hour (3600 s) after the server's time, in the place of what it held, and
    reads as the value. *)
Theorem set_cache_overwrites_with_ttl (key value : string) (w : World) :
  (fault_free 3 (faults (redis w)) = true →
   ∃ w', set_cache key value w =
           (Return (VDict [("key", VStr key); ("value", VStr value);
                           ("status", VStr "set")]), w'))
  ∧ (∀ r w',
       set_cache key value w = (Return r, w') →
       r = VDict [("key", VStr key); ("value", VStr value); ("status", VStr "set")]
       ∧ calls (redis w') =
           calls (redis w) ++ [RedisNew; RedisPing; RedisSet key value 3600]
       ∧ store (server (redis w')) =
           <[key := (value, Some (now (server (redis w)) + 3600 * 1000)%Z)]>
             (store (server (redis w)))
       ∧ now (server (redis w')) = now (server (redis w))
       ∧ redis_lookup (server (redis w')) key = Some value).
Proof.
  split.
  - intros Hf. destruct (set_cache_fault_free key value w Hf) as (w' & E & _).
    by exists w'.
  - intros r w' Hset.
    destruct (set_cache_returns _ _ _ _ _ Hset) as (-> & Hsrv & Hcalls).
    split_and!; [done|done|by rewrite Hsrv|by rewrite Hsrv|].
    apply (redis_lookup_fresh (server (redis w)) key value 3600);
      rewrite Hsrv; [done|simpl; lia].
Qed.

Lemma set_cache_overwrites_with_ttl_witness :
  redis_lookup (server (redis world_old_value)) "foo" = Some "old"
  ∧ ∃ w',
      set_cache "foo" "bar" world_old_value
        = (Return (VDict [("key", VStr "foo"); ("value", VStr "bar");
                          ("status", VStr "set")]), w')
      ∧ store (server (redis w')) = <["foo" := ("bar", Some 3600000%Z)]> ∅
      ∧ redis_lookup (server (redis w')) "foo" = Some "bar".
Proof.
  split; [reflexivity|].
  destruct (set_cache_overwrites_with_ttl "foo" "bar" world_old_value)
    as [Hsucceeds Heffects].
  destruct (Hsucceeds eq_refl) as (w' & Hset).
  exists w'. split; [exact Hset|].
  destruct (Heffects _ _ Hset) as (_ & _ & Hstore & _ & Hlookup).
  split; [|exact Hlookup].
  rewrite Hstore. vm_compute. reflexivity.
Defined.

(** C8: after a successful [POST /cache/{key}] with a value, a
    [GET /cache/{key}] made while Redis still stores what the write left,
    less than an hour of server time later, and answered by Redis without a
    fault, returns [{"key": key, "value": value}] with the value written. *)
Theorem cache_write_then_read (key value : string)
    (w w1 w2 : World) (r : pyval) :
  set_cache key value w = (Return r, w1) →
  store (server (redis w2)) = store (server (redis w1)) →
  (now (server (redis w1)) ≤ now (server (redis w2))
     < now (server (redis w1)) + 3600 * 1000)%Z →
  fault_free 3 (faults (redis w2)) = true →
  (get_cache key w2).1 = Return (VDict [("key", VStr key); ("value", VStr value)]).
Proof.
  intros Hset Hst Hnow Hf.
  destruct (set_cache_returns _ _ _ _ _ Hset) as (_ & Hsrv & _).
  pose proof Hf as Hf2. split_fault_free Hf2.
  rewrite (get_cache_connected key w2) by (rewrite !fault_free_S, F, F0; done).
  rewrite F1.
  rewrite (redis_lookup_fresh (server (redis w)) key value 3600); [done| |].
  - by rewrite Hst, Hsrv.
  - rewrite Hsrv in Hnow. simpl in Hnow. lia.
Qed.

Lemma cache_write_then_read_witness :
  (get_cache "foo"
     (set_cache "foo" "bar" world_up).2).1
  = Return (VDict [("key", VStr "foo"); ("value", VStr "bar")]).
Proof.
  apply (cache_write_then_read "foo" "bar" world_up
           (set_cache "foo" "bar" world_up).2
           (set_cache "foo" "bar" world_up).2
           (VDict [("key", VStr "foo"); ("value", VStr "bar"); ("status", VStr "set")]));
    [reflexivity|reflexivity|vm_compute; split; congruence|reflexivity].
Defined.

(** ** The health check *)

Section health_facts.
Context `{Platform}.

Lemma run_query_SELECT_1 db :
  run_query "SELECT 1" db = Some [[("?column?", VInt 1)]].
Proof. reflexivity. Qed.

(** PostgreSQL is marked connected exactly when connecting, opening the
    cursor and [SELECT 1] all go through; closing may still fail. *)
Lemma check_postgresql_outcome sv w :
  ∃ w', check_postgresql (mkFrame sv w) =
          (Return tt,
           mkFrame (if fault_free 3 (faults (postgres w))
                    then <["postgresql" := "connected"]> sv else sv) w')
        ∧ redis w' = redis w ∧ rabbitmq w' = rabbitmq w.
Proof.
  destruct w as [[db fs tr] rd mq cnt dur clk lg].
  unfold check_postgresql, global, services_setitem. unfold_calls.
  cbn [postgres faults]. rewrite !fault_free_S, fault_free_0. cbn.
  ask_oracle; [by eexists|].
  ask_oracle; [by eexists|].
  ask_oracle; [ask_oracle; by eexists|].
  rewrite run_query_SELECT_1. cbn.
  ask_oracle; [by eexists|].
  ask_oracle; by eexists.
Qed.

(** Redis is marked connected exactly when the accessor's two calls and the
    handler's own ping all go through. *)
Lemma check_redis_outcome sv w :
  ∃ w', check_redis (mkFrame sv w) =
          (Return tt,
           mkFrame (if fault_free 3 (faults (redis w))
                    then <["redis" := "connected"]> sv else sv) w')
        ∧ postgres w' = postgres w ∧ rabbitmq w' = rabbitmq w.
Proof.
  destruct w as [pg [s fs tr] mq cnt dur clk lg].
  unfold check_redis, global, services_setitem. unfold_calls.
  cbn [redis faults]. rewrite !fault_free_S, fault_free_0. cbn.
  ask_oracle; [by eexists|].
  ask_oracle; [by eexists|].
  ask_oracle; by eexists.
Qed.

(** RabbitMQ is marked connected exactly when the connection opens and
    closes. *)
Lemma check_rabbitmq_outcome sv w :
  ∃ w', check_rabbitmq (mkFrame sv w) =
          (Return tt,
           mkFrame (if fault_free 2 (faults (rabbitmq w))
                    then <["rabbitmq" := "connected"]> sv else sv) w')
        ∧ postgres w' = postgres w ∧ redis w' = redis w.
Proof.
  destruct w as [pg rd [b fs tr] cnt dur clk lg].
  unfold check_rabbitmq, global, services_setitem. unfold_calls.
  cbn [rabbitmq faults]. rewrite !fault_free_S, fault_free_0. cbn.
  ask_oracle; [by eexists|].
  ask_oracle; by eexists.
Qed.

(** The dictionary after the three probes: each entry was overwritten or
    left alone by its own probe. *)
Lemma services_marked (pg rd mq : bool) :
  let sv0 : gmap string string :=
    <["postgresql" := "disconnected"]>
      (<["redis" := "disconnected"]> (<["rabbitmq" := "disconnected"]> ∅)) in
  let sv1 := if pg then <["postgresql" := "connected"]> sv0 else sv0 in
  let sv2 := if rd then <["redis" := "connected"]> sv1 else sv1 in
  (if mq then <["rabbitmq" := "connected"]> sv2 else sv2) =
  <["postgresql" := connectivity pg]>
    (<["redis" := connectivity rd]> (<["rabbitmq" := connectivity mq]> ∅)).
Proof.
  intros sv0 sv1 sv2. subst sv0 sv1 sv2.
  destruct pg, rd, mq; cbn [connectivity]; apply map_eq; intros k;
    rewrite !lookup_insert; repeat case_decide; simplify_eq; done.
Qed.

(** The response of [health_check], for any world. *)
Lemma health_check_returns w :
  ∃ h w', health_check w = (Return h, w')
    ∧ HealthResponse.status h = "healthy"
    ∧ HealthResponse.services h =
        <["postgresql" := connectivity (fault_free 3 (faults (postgres w)))]>
          (<["redis" := connectivity (fault_free 3 (faults (redis w)))]>
             (<["rabbitmq" := connectivity (fault_free 2 (faults (rabbitmq w)))]> ∅)).
Proof.
  unfold health_check, with_services.
  unfold bind at 1, REQUEST_COUNT_inc, modify.
  set (w0 := mkWorld _ _ _ _ _ _ _).
  set (sv0 := <["postgresql" := "disconnected"]> _).
  destruct (check_postgresql_outcome sv0 w0) as (w1 & E1 & R1 & Q1).
  set (sv1 := if fault_free 3 (faults (postgres w0)) then _ else _) in E1.
  destruct (check_redis_outcome sv1 w1) as (w2 & E2 & P2 & Q2).
  set (sv2 := if fault_free 3 (faults (redis w1)) then _ else _) in E2.
  destruct (check_rabbitmq_outcome sv2 w2) as (w3 & E3 & P3 & R3).
  set (sv3 := if fault_free 2 (faults (rabbitmq w2)) then _ else _) in E3.
  assert (Hsv : sv3 =
    <["postgresql" := connectivity (fault_free 3 (faults (postgres w)))]>
      (<["redis" := connectivity (fault_free 3 (faults (redis w)))]>
         (<["rabbitmq" := connectivity (fault_free 2 (faults (rabbitmq w)))]> ∅))).
  { subst sv3 sv2 sv1 sv0. rewrite Q2, Q1, R1. subst w0. simpl.
    apply services_marked. }
  unfold bind, gets, ret. rewrite E1, E2, E3.
  unfold global, utcnow. simpl. rewrite Hsv.
  eexists _, _. by split_and!.
Qed.

End health_facts.

(** C2: whatever the three backends do, [GET /health] returns, with status
    200 and aggregate status ["healthy"]; its connectivity map has exactly
    the three entries, each decided by the calls to its own backend alone:
    postgresql is connected iff connect, cursor and [SELECT 1] succeed,
    redis iff the client's construction and both pings succeed, rabbitmq
    iff open and close succeed.  With every probe failing all three read
    ["disconnected"]. *)
Theorem health_check_always_healthy `{Platform} (w : World) :
  ∃ h w', health_check w = (Return h, w')
    ∧ status_code (health_check w).1 = 200%Z
    ∧ HealthResponse.status h = "healthy"
    ∧ HealthResponse.services h =
        <["postgresql" := connectivity (fault_free 3 (faults (postgres w)))]>
          (<["redis" := connectivity (fault_free 3 (faults (redis w)))]>
             (<["rabbitmq" := connectivity (fault_free 2 (faults (rabbitmq w)))]> ∅)).
Proof.
  destruct (health_check_returns w) as (h & w' & E & Hst & Hsv).
  exists h, w'. rewrite E. by split_and!.
Qed.

(** ** The user listing *)

Global Instance sorts_before_total db tie : Total (sorts_before db tie).
Proof.
  intros a b. unfold sorts_before.
  destruct (created_at_value a), (created_at_value b); auto; lia.
Qed.

Global Instance sorts_before_trans db tie : Transitive (sorts_before db tie).
Proof.
  intros a b c. unfold sorts_before.
  destruct (created_at_value a), (created_at_value b), (created_at_value c);
    auto; try done; lia.
Qed.

(** Whatever the tie-break, the order a statement sorts by is within
    [descending_nulls_first]. *)
Lemma sorts_before_descending db tie a b :
  sorts_before db tie a b → descending_nulls_first db a b.
Proof.
  unfold sorts_before, descending_nulls_first.
  destruct (created_at_value a), (created_at_value b); auto; lia.
Qed.

Lemma StronglySorted_weaken {A} (R R' : relation A) l :
  (∀ a b, R a b → R' a b) → StronglySorted R l → StronglySorted R' l.
Proof.
  intros HR. induction 1 as [|a l Hl IH Ha]; constructor; [done|].
  eapply Forall_impl; [exact Ha|]. intros b. apply HR.
Qed.

Lemma run_query_users db :
  run_query "SELECT * FROM users ORDER BY created_at DESC LIMIT 10" db =
  match users db with
  | Some rows =>
      if forallb (λ r, bool_decide (is_Some (created_at r))) rows
      then Some (take 10 (merge_sort (sorts_before db (next_tie_break db)) rows))
      else None
  | None => None
  end.
Proof. reflexivity. Qed.

(** What the statement of [get_users] selects from a table, whatever the
    tie-break. *)
Lemma newest_ten db tie table :
  let rows := take 10 (merge_sort (sorts_before db tie) table) in
  let rest := drop 10 (merge_sort (sorts_before db tie) table) in
  length rows = min 10 (length table)
  ∧ rows ++ rest ≡ₚ table
  ∧ StronglySorted (descending_nulls_first db) (rows ++ rest).
Proof.
  intros rows rest. subst rows rest. rewrite take_drop. split_and!.
  - by rewrite length_take, (Permutation_length (merge_sort_Permutation _ table)).
  - apply merge_sort_Permutation.
  - apply (StronglySorted_weaken (sorts_before db tie)).
    + apply sorts_before_descending.
    + apply StronglySorted_merge_sort; apply _.
Qed.

(** A [get_users] that returns got its rows from the statement, run on the
    table as the request found it, with the tie-break of that statement. *)
Lemma get_users_returns w r w' :
  get_users w = (Return r, w') →
  ∃ table,
    users (server (postgres w)) = Some table
    ∧ r = VDict [("users",
                  VList (map VDict
                    (take 10 (merge_sort
                       (sorts_before (server (postgres w))
                          (next_tie_break (server (postgres w)))) table))))].
Proof.
  destruct w as [[db fs tr] rd mq cnt dur clk lg].
  unfold get_users. unfold_calls. cbn.
  ask_oracle; [done|]. ask_oracle; [done|].
  ask_oracle; [by ask_oracle|].
  rewrite run_query_users. cbn.
  destruct (users db) as [table|] eqn:Htable; cbn; [|by ask_oracle].
  destruct (forallb _ table) eqn:Hkeys; cbn; [|by ask_oracle].
  ask_oracle; [by ask_oracle|].
  ask_oracle; [done|]. ask_oracle; [done|].
  intros [= <- <-]. exists table. split; done.
Qed.

(** C6 (as amended): a successful [GET /database/users] returns
    [{"users": rows}] where the rows are rows of the [users] table, each as
    the mapping the cursor delivered, at most 10 of them (10, or the whole
    table when it is smaller), in the order of [ORDER BY created_at DESC]:
    the rows whose [created_at] is NULL first, then the others in
    descending order of [created_at] (newest first); no row left out comes
    before a returned one in that order. *)
Theorem get_users_ten_descending_nulls_first (w w' : World) (r : pyval) :
  get_users w = (Return r, w') →
  ∃ table rows rest,
    users (server (postgres w)) = Some table
    ∧ r = VDict [("users", VList (map VDict rows))]
    ∧ length rows ≤ 10
    ∧ length rows = min 10 (length table)
    ∧ rows ++ rest ≡ₚ table
    ∧ StronglySorted (descending_nulls_first (server (postgres w))) rows
    ∧ StronglySorted (descending_nulls_first (server (postgres w))) (rows ++ rest).
Proof.
  intros Hget. destruct (get_users_returns _ _ _ Hget) as (table & Ht & ->).
  set (db := server (postgres w)). set (tie := next_tie_break db).
  destruct (newest_ten db tie table) as (Hlen & Hperm & Hsorted).
  exists table, (take 10 (merge_sort (sorts_before db tie) table)),
    (drop 10 (merge_sort (sorts_before db tie) table)).
  split_and!; [done|done|rewrite length_take; lia|done|done| |done].
  by apply StronglySorted_app_1_l in Hsorted.
Qed.

Lemma get_users_ten_descending_nulls_first_witness :
  (get_users world_up).1 =
    Return (VDict [("users", VList (map VDict
      [ [("id", VInt 3); ("created_at", VNone)];
        [("id", VInt 2); ("created_at", VDatetime 1700000009000000)];
        [("id", VInt 1); ("created_at", VDatetime 1700000005000000)] ]))])
  ∧ ∃ table rows rest,
      users (server (postgres world_up)) = Some table
      ∧ (get_users world_up).1 = Return (VDict [("users", VList (map VDict rows))])
      ∧ length rows ≤ 10
      ∧ length rows = min 10 (length table)
      ∧ rows ++ rest ≡ₚ table
      ∧ StronglySorted (descending_nulls_first (server (postgres world_up))) rows
      ∧ StronglySorted (descending_nulls_first (server (postgres world_up)))
          (rows ++ rest).
Proof.
  split; [reflexivity|].
  destruct (get_users_ten_descending_nulls_first world_up (get_users world_up).2
              (VDict [("users", VList (map VDict
      [ [("id", VInt 3); ("created_at", VNone)];
        [("id", VInt 2); ("created_at", VDatetime 1700000009000000)];
        [("id", VInt 1); ("created_at", VDatetime 1700000005000000)] ]))]))
    as (table & rows & rest & Ht & Hr & Hrest); [reflexivity|].
  exists table, rows, rest. split; [exact Ht|]. split; [|exact Hrest].
  rewrite <- Hr. reflexivity.
Defined.

(** C6, as stated, fails: the successful response on [world_up] lists
    first the user whose [created_at] is NULL, before the two users that
    have a creation time; its first row is not the newest, and the rows are
    not in the order newest first. *)
Lemma get_users_null_before_newest :
  let rows :=
    [ [("id", VInt 3); ("created_at", VNone)];
      [("id", VInt 2); ("created_at", VDatetime 1700000009000000)];
      [("id", VInt 1); ("created_at", VDatetime 1700000005000000)] ] in
  (get_users world_up).1 = Return (VDict [("users", VList (map VDict rows))])
  ∧ ¬ StronglySorted (newest_first (server (postgres world_up))) rows.
Proof.
  intros rows. split; [reflexivity|].
  intros Hsorted. apply StronglySorted_inv in Hsorted as [_ Hhd].
  apply Forall_inv in Hhd. exact Hhd.
Qed.

(** ** Publishing messages *)

Lemma broker_publish_default rk body mode b :
  broker_publish "" rk body mode b =
  match queues b !! rk with
  | Some q =>
      (Return tt,
       mkBroker (<[rk := mkQueue (durable q) (messages q ++ [(body, mode)])]> (queues b)))
  | None => (Return tt, b)
  end.
Proof. reflexivity. Qed.

Lemma short_string_empty : short_string "" = true.
Proof. reflexivity. Qed.



Section publish_facts.
Context `{Platform}.

(** A [send_message] that returns: its identifier, its six calls to the
    broker, and the queue it filled. *)
Lemma send_message_returns rq w m w' :
  send_message rq w = (Return m, w') →
  let q := "messages_" +:+ MessageRequest.priority rq in
  ∃ body,
    MessageResponse.id m = "msg_" +:+ format_timestamp (next_reading (clock w))
    ∧ MessageResponse.message m = MessageRequest.message rq
    ∧ MessageResponse.status m = "sent"
    ∧ calls (rabbitmq w') =
        calls (rabbitmq w) ++
        [MqConnect; MqChannel; MqQueueDeclare q true;
         MqBasicPublish "" q body 2; MqChannelClose; MqClose]
    ∧ queues (server (rabbitmq w')) =
        <[q := mkQueue true (waiting (server (rabbitmq w)) q ++ [(body, 2%Z)])]>
          (queues (server (rabbitmq w))).
Proof.
  destruct w as [pg rd [[qs] fs tr] cnt dur [t ts] lg]. intros Hsend q.
  revert Hsend. unfold send_message. unfold_calls.
  rewrite short_string_empty. cbn. fold q.
  ask_oracle; [done|]. ask_oracle; [done|]. ask_oracle; [done|].
  destruct (short_string q) eqn:Hshort; cbn; [|done].
  unfold broker_declare, waiting. cbn.
  destruct (qs !! q) as [[d old]|] eqn:Hq; cbn.
  - case_bool_decide as Hd; cbn in *; [subst d|done].
    ask_oracle; [done|].
    rewrite broker_publish_default. cbn. rewrite Hq. cbn.
    ask_oracle; [done|]. ask_oracle; [done|].
    intros [= <- <-]. cbn. eexists. split_and!; try done.
    + by destruct ts.
    + by rewrite <- !app_assoc.
  - ask_oracle; [done|].
    rewrite broker_publish_default. cbn. rewrite lookup_insert_eq. cbn.
    ask_oracle; [done|]. ask_oracle; [done|].
    intros [= <- <-]. cbn. eexists. split_and!; try done.
    + by destruct ts.
    + by rewrite <- !app_assoc.
    + by rewrite insert_insert_eq.
Qed.



End publish_facts.




(** C4 (as amended): the identifier of a successful [POST /messages] is
    ["msg_"] followed by the rendering of the clock reading the handler took
    for it, and of nothing else; so two successful requests carry distinct
    identifiers exactly when the renderings of their two readings differ. *)
Theorem message_ids_differ_iff_readings_differ `{Platform}
    (rq1 rq2 : MessageRequest.t) (w1 w2 w1' w2' : World)
    (m1 m2 : MessageResponse.t) :
  send_message rq1 w1 = (Return m1, w1') →
  send_message rq2 w2 = (Return m2, w2') →
  MessageResponse.id m1 = "msg_" +:+ format_timestamp (next_reading (clock w1))
  ∧ MessageResponse.id m2 = "msg_" +:+ format_timestamp (next_reading (clock w2))
  ∧ (MessageResponse.id m1 ≠ MessageResponse.id m2
     ↔ format_timestamp (next_reading (clock w1))
       ≠ format_timestamp (next_reading (clock w2))).
Proof.
  intros H1 H2.
  destruct (send_message_returns _ _ _ _ H1) as (_ & -> & _).
  destruct (send_message_returns _ _ _ _ H2) as (_ & -> & _).
  split_and!; [done|done|]. split.
  - intros Hne Heq. apply Hne. by rewrite Heq.
  - intros Hne Heq. by apply Hne, (append_inj_l "msg_").
Qed.

Lemma message_ids_differ_iff_readings_differ_witness :
  let rq := MessageRequest.parse "hi" None in
  let m1 := MessageResponse.mk "msg_1700000000000000" "hi" "sent" "1700000000000000" in
  let m2 := MessageResponse.mk "msg_1700000000000100" "hi" "sent" "1700000000000900" in
  (@send_message decimal_platform rq world_up).1 = Return m1
  ∧ (@send_message decimal_platform rq world_clock_set_back).1 = Return m2
  ∧ MessageResponse.id m1 ≠ MessageResponse.id m2.
Proof.
  intros rq m1 m2.
  split; [vm_compute; reflexivity|]. split; [vm_compute; reflexivity|].
  apply (@message_ids_differ_iff_readings_differ decimal_platform rq rq
           world_up world_clock_set_back
           (@send_message decimal_platform rq world_up).2
           (@send_message decimal_platform rq world_clock_set_back).2 m1 m2).
  - vm_compute. reflexivity.
  - vm_compute. reflexivity.
  - vm_compute. discriminate.
Defined.

(** C4, as stated, fails: two successive successful requests with the same
    message and priority, the wall clock having been set back in between so
    that both identifiers are generated at the same reading, carry the same
    identifier. *)
Lemma message_ids_collide :
  let rq := MessageRequest.parse "hi" None in
  ∃ m1 w1 m2 w2,
    @send_message decimal_platform rq world_clock_set_back = (Return m1, w1)
    ∧ @send_message decimal_platform rq w1 = (Return m2, w2)
    ∧ MessageResponse.id m1 = MessageResponse.id m2.
Proof.
  intros rq. eexists _, _, _, _. split_and!.
  - vm_compute. reflexivity.
  - vm_compute. reflexivity.
  - reflexivity.
Qed.

(** ** Unavailable backends *)

(** The accessors always return: a connection when the calls that open it
    go through, [None] as soon as one of them raises. *)
Lemma get_db_connection_returns w :
  ∃ w', get_db_connection w =
          (Return (if hd false (faults (postgres w)) then None else Some Connection),
           w').
Proof.
  destruct w as [[db fs tr] rd mq cnt dur clk lg].
  unfold_calls. cbn. ask_oracle; by eexists.
Qed.

Lemma get_redis_connection_returns w :
  ∃ w', get_redis_connection w =
          (Return (if fault_free 2 (faults (redis w)) then Some RedisClient else None),
           w').
Proof.
  destruct w as [pg [s fs tr] mq cnt dur clk lg].
  unfold_calls. cbn [redis faults]. rewrite !fault_free_S, fault_free_0. cbn.
  ask_oracle; [by eexists|]. ask_oracle; by eexists.
Qed.

Lemma get_rabbitmq_connection_returns w :
  ∃ w', get_rabbitmq_connection w =
          (Return (if hd false (faults (rabbitmq w)) then None else Some BlockingConn),
           w').
Proof.
  destruct w as [pg rd [b fs tr] cnt dur clk lg].
  unfold_calls. cbn. ask_oracle; by eexists.
Qed.

(** The shape the four backend handlers share: count, ask the accessor,
    and on [None] raise 503 before anything else. *)
Lemma absent_connection_raises_503 {A C} method endpoint
    (accessor : M World (option C)) detail (operation : C → M World A) w w1 :
  (REQUEST_COUNT_inc method endpoint >> accessor) w = (Return None, w1) →
  (REQUEST_COUNT_inc method endpoint >>
   do conn <- accessor;
   match conn with
   | None => raise (HTTPException 503 detail)
   | Some conn => operation conn
   end) w = (Raise (HTTPException 503 detail), w1).
Proof.
  unfold bind, REQUEST_COUNT_inc, modify, raise. cbn.
  destruct (accessor _) as [[[c|]|e] w2]; by intros [= <-].
Qed.

(** C9: each of the three connection accessors returns in every world,
    and returns [None] whenever a call that opens the connection raises;
    each of the four handlers whose operation depends on a backend
    ([send_message], [get_cache], [set_cache], [get_users]) answers a [None]
    from its accessor with 503, leaving the world exactly as the accessor
    left it, so without attempting the operation. *)
Theorem absent_connection_is_503 `{Platform} (w : World) :
  (∃ w', get_db_connection w =
           (Return (if hd false (faults (postgres w)) then None else Some Connection),
            w'))
  ∧ (∃ w', get_redis_connection w =
             (Return (if fault_free 2 (faults (redis w)) then Some RedisClient else None),
              w'))
  ∧ (∃ w', get_rabbitmq_connection w =
             (Return (if hd false (faults (rabbitmq w)) then None else Some BlockingConn),
              w'))
  ∧ (∀ rq w1,
       (REQUEST_COUNT_inc "POST" "/messages" >> get_rabbitmq_connection) w
         = (Return None, w1) →
       send_message rq w
         = (Raise (HTTPException 503 "RabbitMQ service unavailable"), w1))
  ∧ (∀ key w1,
       (REQUEST_COUNT_inc "GET" "/cache" >> get_redis_connection) w
         = (Return None, w1) →
       get_cache key w
         = (Raise (HTTPException 503 "Redis service unavailable"), w1))
  ∧ (∀ key value w1,
       (REQUEST_COUNT_inc "POST" "/cache" >> get_redis_connection) w
         = (Return None, w1) →
       set_cache key value w
         = (Raise (HTTPException 503 "Redis service unavailable"), w1))
  ∧ (∀ w1,
       (REQUEST_COUNT_inc "GET" "/database/users" >> get_db_connection) w
         = (Return None, w1) →
       get_users w
         = (Raise (HTTPException 503 "Database service unavailable"), w1)).
Proof.
  split_and!.
  - apply get_db_connection_returns.
  - apply get_redis_connection_returns.
  - apply get_rabbitmq_connection_returns.
  - intros rq w1. apply absent_connection_raises_503.
  - intros key w1. apply absent_connection_raises_503.
  - intros key value w1. apply absent_connection_raises_503.
  - intros w1. apply absent_connection_raises_503.
Qed.

Lemma absent_connection_is_503_witness :
  status_code (get_cache "foo" world_down).1 = 503%Z
  ∧ calls (redis (get_cache "foo" world_down).2) = [RedisNew]
  ∧ status_code (get_users world_down).1 = 503%Z
  ∧ calls (postgres (get_users world_down).2) = [PgConnect].
Proof.
  destruct (@absent_connection_is_503 decimal_platform world_down)
    as (_ & _ & _ & _ & Hget & _ & Husers).
  rewrite (Hget "foo" _ eq_refl), (Husers _ eq_refl).
  split_and!; reflexivity.
Defined.

(** ** The examples of the specification, run on [world_up] *)

(** [POST /cache/foo] with value [bar], then [GET /cache/foo]. *)
Example cache_foo_bar :
  let posted := set_cache "foo" "bar" world_up in
  posted.1 = Return (VDict [("key", VStr "foo"); ("value", VStr "bar");
                            ("status", VStr "set")])
  ∧ (get_cache "foo" posted.2).1
    = Return (VDict [("key", VStr "foo"); ("value", VStr "bar")]).
Proof. vm_compute. done. Qed.

(** The same read one hour and one millisecond of server time later: the
    key has expired, and the answer is the 500 of C1. *)
Example cache_foo_expired :
  let posted := (set_cache "foo" "bar" world_up).2 in
  let later :=
    mkWorld (postgres posted)
      (mkBackend (mkRedis (store (server (redis posted))) 3600001) [] [])
      (rabbitmq posted) (REQUEST_COUNT posted) (REQUEST_DURATION posted)
      (clock posted) (logger posted) in
  status_code (get_cache "foo" later).1 = 500%Z.
Proof. vm_compute. done. Qed.

(** What the log holds after a read of a key that was never written: the
    404 exception the handler raised and then caught itself. *)
Example absent_key_logs_the_404 :
  logger (get_cache "foo" world_up).2
  = [("Failed to get cache value", HTTPException 404 "Key not found")].
Proof. vm_compute. done. Qed.

(** [POST /messages {"message": "hi", "priority": "high"}]: status [sent],
    an identifier prefixed [msg_], and one persistent message in the durable
    queue [messages_high]. *)
Example message_hi_high :
  let sent :=
    @send_message decimal_platform (MessageRequest.parse "hi" (Some "high")) world_up in
  sent.1 = Return (MessageResponse.mk "msg_1700000000000000" "hi" "sent"
                     "1700000000000000")
  ∧ queues (server (rabbitmq sent.2)) !! "messages_high"
    = Some (mkQueue true
        [("{'id':'msg_1700000000000000','message':'hi','priority':'high','timestamp':'1700000000000000',}",
          2%Z)]).
Proof. vm_compute. done. Qed.

(** [GET /health] with every backend down. *)
Example health_all_down :
  (λ h, (HealthResponse.status h,
         HealthResponse.services h !! "postgresql",
         HealthResponse.services h !! "redis",
         HealthResponse.services h !! "rabbitmq"))
    <$> match (@health_check decimal_platform world_down).1 with
        | Return h => Some h
        | Raise _ => None
        end
  = Some ("healthy", Some "disconnected", Some "disconnected", Some "disconnected").
Proof. vm_compute. done. Qed.

(** * Further properties of the handlers *)

(** ** What a handler can raise *)

Section raises.
Context {S : Type} (P : exn → Prop).

Lemma Raises_ret {A} (a : A) : Raises (S := S) P (ret a).
Proof. by intros s. Qed.

Lemma Raises_raise {A} e : P e → Raises (S := S) P (raise (A := A) e).
Proof. by intros He s. Qed.

Lemma Raises_gets {A} (f : S → A) : Raises P (gets f).
Proof. by intros s. Qed.

Lemma Raises_modify (f : S → S) : Raises P (modify f).
Proof. by intros s. Qed.

Lemma Raises_bind {A B} (m : M S A) (k : A → M S B) :
  Raises P m → (∀ a, Raises P (k a)) → Raises P (bind m k).
Proof.
  intros Hm Hk s. unfold bind. specialize (Hm s).
  destruct (m s) as [[a|e] s']; simpl in *; [apply Hk|done].
Qed.

(** Whatever the body raises is caught: only the handler's own raises get
    out. *)
Lemma Raises_try_except {A} (body : M S A) handler :
  (∀ e, Raises P (handler e)) → Raises P (try_except body handler).
Proof.
  intros Hk s. unfold try_except.
  destruct (body s) as [[a|e] s']; simpl; [done|apply Hk].
Qed.
End raises.

Lemma Raises_global {A} P (m : M World A) : Raises P m → Raises P (global m).
Proof.
  intros Hm [sv w]. unfold global. simpl. specialize (Hm w).
  by destruct (m w) as [[a|e] w'].
Qed.

Lemma Raises_with_services {A} P init (body : M Frame A) :
  Raises P body → Raises P (with_services init body).
Proof.
  intros Hm w. unfold with_services. specialize (Hm (mkFrame init w)).
  by destruct (body (mkFrame init w)) as [[a|e] f].
Qed.

Lemma Raises_utcnow P : Raises P utcnow.
Proof. by intros w. Qed.

Ltac raises_step :=
  lazymatch goal with
  | |- Raises _ (bind _ _) => apply Raises_bind; [|intros ?]
  | |- Raises _ (try_except _ _) => apply Raises_try_except; intros ?
  | |- Raises _ (with_services _ _) => apply Raises_with_services
  | |- Raises _ (global _) => apply Raises_global
  | |- Raises _ (match ?x with _ => _ end) => destruct x
  | |- Raises _ (ret _) => apply Raises_ret
  | |- Raises _ (gets _) => apply Raises_gets
  | |- Raises _ (modify _) => apply Raises_modify
  | |- Raises _ utcnow => apply Raises_utcnow
  | |- Raises _ (raise _) => apply Raises_raise; set_solver
  end.

Ltac raises :=
  unfold get_db_connection, get_redis_connection, get_rabbitmq_connection,
    REQUEST_COUNT_inc, logger_error, fmap_M;
  repeat raises_step.

(** X1: whatever the backends do, a handler either returns or raises the
    503 or the 500 [HTTPException] of its own route, with its fixed detail;
    no exception of a client library gets out of a handler, nor does the 404
    of [get_cache]; [root], [health_check] and [metrics] never raise. *)
Theorem handlers_raise_their_own_errors `{Platform} (rq : request) (w : World)
    (e : exn) :
  (handle rq w).1 = Raise e →
  e ∈ errors_of rq
  ∧ (status_code (handle rq w).1 = 503%Z ∨ status_code (handle rq w).1 = 500%Z).
Proof.
  assert (Hr : Raises (λ e, e ∈ errors_of rq) (handle rq)).
  { destruct rq; unfold handle, errors_of;
      [unfold root
      | unfold health_check, check_postgresql, check_redis, check_rabbitmq
      | unfold metrics | unfold send_message | unfold get_cache
      | unfold set_cache | unfold get_users]; raises. }
  intros He. specialize (Hr w). rewrite He in Hr. split; [done|].
  rewrite He.
  destruct rq; simpl in Hr;
    repeat (apply elem_of_cons in Hr as [->|Hr]; [simpl; auto|]);
    by apply elem_of_nil in Hr.
Qed.

Lemma handlers_raise_their_own_errors_witness :
  HTTPException 503 "Database service unavailable" ∈ errors_of GET_database_users
  ∧ (status_code (@handle decimal_platform GET_database_users world_down).1 = 503%Z
     ∨ status_code (@handle decimal_platform GET_database_users world_down).1 = 500%Z).
Proof.
  apply (@handlers_raise_their_own_errors decimal_platform GET_database_users
           world_down).
  reflexivity.
Defined.

(** ** Counting over a run of requests *)

Section runs.
Context `{Platform}.

Lemma requests_with_cons method endpoint rq rqs :
  requests_with method endpoint (rq :: rqs) =
  (if decide (labels rq = (method, endpoint)) then 1 else 0)
  + requests_with method endpoint rqs.
Proof.
  unfold requests_with. rewrite filter_cons. by case_decide.
Qed.

Lemma requests_with_app method endpoint rqs1 rqs2 :
  requests_with method endpoint (rqs1 ++ rqs2) =
  requests_with method endpoint rqs1 + requests_with method endpoint rqs2.
Proof. unfold requests_with. by rewrite filter_app, length_app. Qed.

Lemma count_handle rq w method endpoint :
  count (REQUEST_COUNT (handle rq w).2) method endpoint =
  (if decide (labels rq = (method, endpoint)) then 1 else 0)
  + count (REQUEST_COUNT w) method endpoint.
Proof.
  pose proof (collectors_handle rq w) as Hc. unfold collectors in Hc.
  injection Hc as Hcount _. unfold count at 1. rewrite Hcount.
  case_decide as Hl.
  - rewrite Hl. by rewrite lookup_insert_eq.
  - by rewrite lookup_insert_ne.
Qed.

Lemma collectors_serve rqs w method endpoint :
  count (REQUEST_COUNT (serve rqs w)) method endpoint =
    count (REQUEST_COUNT w) method endpoint + requests_with method endpoint rqs
  ∧ REQUEST_DURATION (serve rqs w) = REQUEST_DURATION w.
Proof.
  revert w. induction rqs as [|rq rqs IH]; intros w; simpl.
  - unfold requests_with. simpl. split; [lia|done].
  - destruct (IH (handle rq w).2) as [-> ->].
    rewrite count_handle, requests_with_cons.
    pose proof (collectors_handle rq w) as Hc. unfold collectors in Hc.
    injection Hc as _ ->. split; [lia|done].
Qed.

End runs.

(** X2: after any run of requests, whatever their outcomes, each labelled
    counter has grown by the number of requests of the run that carry its
    labels, and the histogram holds what it held. *)
Theorem counters_tally_the_run `{Platform} (rqs : list request) (w : World)
    (method endpoint : string) :
  count (REQUEST_COUNT (serve rqs w)) method endpoint =
    count (REQUEST_COUNT w) method endpoint + requests_with method endpoint rqs
  ∧ REQUEST_DURATION (serve rqs w) = REQUEST_DURATION w.
Proof. apply collectors_serve. Qed.

(** X3: a scrape of [/metrics] after a run of requests always succeeds and
    exposes, for every pair of labels, the count before the run plus the
    number of requests of the run with these labels, the scrape itself
    included; the exposed histogram is the one before the run. *)
Theorem metrics_exposes_the_tally `{Platform} (rqs : list request) (w : World) :
  ∃ counters durations,
    (handle GET_metrics (serve rqs w)).1 = Return (Exposition counters durations)
    ∧ (∀ method endpoint,
         count counters method endpoint =
           count (REQUEST_COUNT w) method endpoint
           + requests_with method endpoint (rqs ++ [GET_metrics]))
    ∧ durations = REQUEST_DURATION w.
Proof.
  eexists _, _. split; [reflexivity|]. split.
  - intros method endpoint.
    destruct (collectors_serve rqs w method endpoint) as [Hc _].
    rewrite requests_with_app, requests_with_cons.
    unfold requests_with at 2. simpl.
    unfold count at 1. simpl. case_decide as Hl.
    + injection Hl as <- <-. rewrite lookup_insert_eq. simpl.
      fold (count (REQUEST_COUNT (serve rqs w)) "GET" "/metrics"). lia.
    + rewrite lookup_insert_ne by congruence.
      fold (count (REQUEST_COUNT (serve rqs w)) method endpoint). lia.
  - simpl. apply (collectors_serve rqs w "GET" "/metrics").
Qed.

(** ** Which backend a handler reaches *)

Lemma postgres_on_redis {A} (m : M _ A) : Preserves postgres (on_redis m).
Proof. intros w. unfold on_redis. by destruct (m (redis w)). Qed.

Lemma postgres_on_rabbitmq {A} (m : M _ A) : Preserves postgres (on_rabbitmq m).
Proof. intros w. unfold on_rabbitmq. by destruct (m (rabbitmq w)). Qed.

Lemma redis_on_postgres {A} (m : M _ A) : Preserves redis (on_postgres m).
Proof. intros w. unfold on_postgres. by destruct (m (postgres w)). Qed.

Lemma redis_on_rabbitmq {A} (m : M _ A) : Preserves redis (on_rabbitmq m).
Proof. intros w. unfold on_rabbitmq. by destruct (m (rabbitmq w)). Qed.

Lemma rabbitmq_on_postgres {A} (m : M _ A) : Preserves rabbitmq (on_postgres m).
Proof. intros w. unfold on_postgres. by destruct (m (postgres w)). Qed.

Lemma rabbitmq_on_redis {A} (m : M _ A) : Preserves rabbitmq (on_redis m).
Proof. intros w. unfold on_redis. by destruct (m (redis w)). Qed.

(** The counter, the clock and the logger are kept in the process. *)
Lemma backends_count method endpoint :
  Preserves postgres (REQUEST_COUNT_inc method endpoint)
  ∧ Preserves redis (REQUEST_COUNT_inc method endpoint)
  ∧ Preserves rabbitmq (REQUEST_COUNT_inc method endpoint).
Proof. done. Qed.

Lemma backends_utcnow :
  Preserves postgres utcnow ∧ Preserves redis utcnow ∧ Preserves rabbitmq utcnow.
Proof. done. Qed.

Lemma backends_logger_error what e :
  Preserves postgres (logger_error what e)
  ∧ Preserves redis (logger_error what e)
  ∧ Preserves rabbitmq (logger_error what e).
Proof. done. Qed.

Ltac process_local :=
  first [ apply backends_count | apply backends_utcnow
        | apply backends_logger_error
        | apply (proj1 (proj2 (backends_count _ _)))
        | apply (proj1 (proj2 backends_utcnow))
        | apply (proj1 (proj2 (backends_logger_error _ _)))
        | apply (proj2 (proj2 (backends_count _ _)))
        | apply (proj2 (proj2 backends_utcnow))
        | apply (proj2 (proj2 (backends_logger_error _ _))) ].

#[local] Hint Resolve postgres_on_redis postgres_on_rabbitmq redis_on_postgres
  redis_on_rabbitmq rabbitmq_on_postgres rabbitmq_on_redis : frame.
#[local] Hint Extern 1 (Preserves _ (REQUEST_COUNT_inc _ _)) => process_local : frame.
#[local] Hint Extern 1 (Preserves _ utcnow) => process_local : frame.
#[local] Hint Extern 1 (Preserves _ (logger_error _ _)) => process_local : frame.

Section reach.
Context `{Platform}.

Lemma root_reaches_no_backend :
  Preserves postgres root ∧ Preserves redis root ∧ Preserves rabbitmq root.
Proof. unfold root. split_and!; frame. Qed.

Lemma metrics_reaches_no_backend :
  Preserves postgres metrics ∧ Preserves redis metrics ∧ Preserves rabbitmq metrics.
Proof. unfold metrics. split_and!; frame. Qed.

Lemma send_message_reaches_rabbitmq_only rq :
  Preserves postgres (send_message rq) ∧ Preserves redis (send_message rq).
Proof. unfold send_message. unfold_clients. split; frame. Qed.

Lemma get_cache_reaches_redis_only key :
  Preserves postgres (get_cache key) ∧ Preserves rabbitmq (get_cache key).
Proof. unfold get_cache. unfold_clients. split; frame. Qed.

Lemma set_cache_reaches_redis_only key value :
  Preserves postgres (set_cache key value) ∧ Preserves rabbitmq (set_cache key value).
Proof. unfold set_cache. unfold_clients. split; frame. Qed.

Lemma get_users_reaches_postgres_only :
  Preserves redis get_users ∧ Preserves rabbitmq get_users.
Proof. unfold get_users. unfold_clients. split; frame. Qed.

End reach.

(** X4: no handler reaches a backend other than its own, whatever happens:
    [root] and [metrics] leave the three backends as they are (contents,
    pending faults, trace of calls), [send_message] leaves PostgreSQL and
    Redis, the two cache handlers leave PostgreSQL and RabbitMQ, [get_users]
    leaves Redis and RabbitMQ. *)
Theorem handlers_reach_their_backend_only `{Platform} :
  (Preserves postgres root ∧ Preserves redis root ∧ Preserves rabbitmq root)
  ∧ (Preserves postgres metrics ∧ Preserves redis metrics
     ∧ Preserves rabbitmq metrics)
  ∧ (∀ rq, Preserves postgres (send_message rq) ∧ Preserves redis (send_message rq))
  ∧ (∀ key, Preserves postgres (get_cache key) ∧ Preserves rabbitmq (get_cache key))
  ∧ (∀ key value, Preserves postgres (set_cache key value)
                  ∧ Preserves rabbitmq (set_cache key value))
  ∧ (Preserves redis get_users ∧ Preserves rabbitmq get_users).
Proof.
  split; [apply root_reaches_no_backend|].
  split; [apply metrics_reaches_no_backend|].
  split; [apply send_message_reaches_rabbitmq_only|].
  split; [apply get_cache_reaches_redis_only|].
  split; [apply set_cache_reaches_redis_only|].
  apply get_users_reaches_postgres_only.
Qed.

(** ** Requests that only read *)

(** A call to PostgreSQL whose effect, if any, is on the cursor's result
    set. *)
Lemma stored_postgres_call {A} c origin (op : Postgres → result A * Postgres) :
  (∀ db, users (op db).2 = users db) →
  Preserves stored (on_postgres (call c origin op)).
Proof.
  intros Hop w. unfold on_postgres, call, stored. simpl.
  destruct (hd false _); simpl; [done|].
  specialize (Hop (server (postgres w))).
  destruct (op (server (postgres w))) as [r db]. simpl in *. by rewrite Hop.
Qed.

Lemma stored_redis_call {A} c origin (f : RedisServer → result A) :
  Preserves stored (on_redis (call c origin (λ s, (f s, s)))).
Proof. intros w. unfold on_redis, call, stored. simpl. by destruct (hd false _). Qed.

Lemma stored_rabbitmq_call {A} c origin (f : Broker → result A) :
  Preserves stored (on_rabbitmq (call c origin (λ b, (f b, b)))).
Proof. intros w. unfold on_rabbitmq, call, stored. simpl. by destruct (hd false _). Qed.

Lemma stored_psycopg2_connect : Preserves stored psycopg2_connect.
Proof. by apply stored_postgres_call. Qed.

Lemma stored_connection_cursor c : Preserves stored (connection_cursor c).
Proof. by apply stored_postgres_call. Qed.

Lemma stored_cursor_execute c sql : Preserves stored (cursor_execute c sql).
Proof.
  apply stored_postgres_call. intros db. by destruct (run_query sql db).
Qed.

Lemma stored_cursor_fetchall c : Preserves stored (cursor_fetchall c).
Proof. apply stored_postgres_call. intros db. by destruct (pending db). Qed.

Lemma stored_cursor_close c : Preserves stored (cursor_close c).
Proof. by apply stored_postgres_call. Qed.

Lemma stored_connection_close c : Preserves stored (connection_close c).
Proof. by apply stored_postgres_call. Qed.

Lemma stored_redis_Redis : Preserves stored redis_Redis.
Proof. apply (stored_redis_call _ _ (λ _, Return _)). Qed.

Lemma stored_redis_ping r : Preserves stored (redis_ping r).
Proof. apply (stored_redis_call _ _ (λ _, Return _)). Qed.

Lemma stored_redis_get r key : Preserves stored (redis_get r key).
Proof. apply (stored_redis_call _ _ (λ s, Return _)). Qed.

Lemma stored_pika_BlockingConnection : Preserves stored pika_BlockingConnection.
Proof. apply (stored_rabbitmq_call _ _ (λ _, Return _)). Qed.

Lemma stored_rabbitmq_close c : Preserves stored (rabbitmq_close c).
Proof. apply (stored_rabbitmq_call _ _ (λ _, Return _)). Qed.

Lemma stored_count method endpoint : Preserves stored (REQUEST_COUNT_inc method endpoint).
Proof. done. Qed.

Lemma stored_utcnow : Preserves stored utcnow.
Proof. done. Qed.

Lemma stored_logger_error what e : Preserves stored (logger_error what e).
Proof. done. Qed.

#[local] Hint Resolve stored_psycopg2_connect stored_connection_cursor
  stored_cursor_execute stored_cursor_fetchall stored_cursor_close
  stored_connection_close stored_redis_Redis stored_redis_ping stored_redis_get
  stored_pika_BlockingConnection stored_rabbitmq_close stored_count
  stored_utcnow stored_logger_error : frame.

Ltac unfold_accessors :=
  unfold get_db_connection, get_redis_connection, get_rabbitmq_connection.

Section reads.
Context `{Platform}.

Lemma stored_root : Preserves stored root.
Proof. unfold root. frame. Qed.

Lemma stored_health_check : Preserves stored health_check.
Proof.
  unfold health_check, check_postgresql, check_redis, check_rabbitmq.
  unfold_accessors. frame.
Qed.

Lemma stored_metrics : Preserves stored metrics.
Proof. unfold metrics. frame. Qed.

Lemma stored_get_cache key : Preserves stored (get_cache key).
Proof. unfold get_cache. unfold_accessors. frame. Qed.

Lemma stored_get_users : Preserves stored get_users.
Proof. unfold get_users. unfold_accessors. frame. Qed.

End reads.

(** X5: a [GET] request never changes the data the backends hold: after
    [/], [/health], [/metrics], [/cache/{key}] or [/database/users],
    whatever the outcome, the [users] table, what Redis stores (values,
    deadlines, server time) and the queues of the broker with their messages
    are what they were. *)
Theorem get_requests_change_no_data `{Platform} (rq : request) (w : World) :
  (labels rq).1 = "GET" →
  stored (handle rq w).2 = stored w.
Proof.
  intros Hget.
  destruct rq; try discriminate Hget; unfold handle; rewrite ?fmap_M_state.
  - apply stored_root.
  - apply stored_health_check.
  - apply stored_metrics.
  - apply stored_get_cache.
  - apply stored_get_users.
Qed.

Lemma get_requests_change_no_data_witness :
  stored (@handle decimal_platform GET_health world_down).2 = stored world_down
  ∧ stored (@handle decimal_platform GET_database_users world_up).2 = stored world_up.
Proof.
  split.
  - apply (@get_requests_change_no_data decimal_platform GET_health world_down).
    reflexivity.
  - apply (@get_requests_change_no_data decimal_platform GET_database_users world_up).
    reflexivity.
Defined.

(** ** Writes to the cache *)

(** X6: whatever its outcome, [set_cache] leaves the server time of Redis
    alone and changes at most the binding of its own key: what Redis stores
    afterwards is what it stored, or that with the key bound to the value
    and a deadline 3600 s ahead. *)
Theorem set_cache_changes_its_key_only (key value : string) (w : World) :
  let w' := (set_cache key value w).2 in
  now (server (redis w')) = now (server (redis w))
  ∧ (store (server (redis w')) = store (server (redis w))
     ∨ store (server (redis w')) =
         <[key := (value, Some (now (server (redis w)) + 3600 * 1000)%Z)]>
           (store (server (redis w)))).
Proof.
  destruct w as [pg [s fs tr] mq cnt dur clk lg].
  unfold set_cache. unfold_calls. cbn.
  ask_oracle; [auto|]. ask_oracle; [auto|]. ask_oracle; auto.
Qed.

(** X7: the last write wins.  With Redis answering, two writes to a key
    followed by a read of it return the value of the second write. *)
Theorem cache_last_write_wins (key v1 v2 : string) (w : World) :
  fault_free 9 (faults (redis w)) = true →
  let w1 := (set_cache key v1 w).2 in
  let w2 := (set_cache key v2 w1).2 in
  (get_cache key w2).1 = Return (VDict [("key", VStr key); ("value", VStr v2)]).
Proof.
  intros Hf w1 w2.
  change 9 with (3 + (3 + 3)) in Hf. rewrite !fault_free_drop in Hf.
  apply andb_prop in Hf as [Hf1 Hf]. apply andb_prop in Hf as [Hf2 Hf3].
  destruct (set_cache_fault_free key v1 w Hf1) as (w1' & E1 & S1 & F1).
  assert (w1 = w1') as -> by (subst w1; by rewrite E1).
  rewrite <- F1 in Hf2, Hf3.
  destruct (set_cache_fault_free key v2 w1' Hf2) as (w2' & E2 & S2 & F2).
  assert (w2 = w2') as -> by (subst w2; by rewrite E2).
  rewrite <- F2 in Hf3.
  pose proof Hf3 as Hf3'. split_fault_free Hf3'.
  rewrite (get_cache_connected key w2') by (rewrite !fault_free_S, F, F0; done).
  rewrite F3.
  rewrite (redis_lookup_fresh (server (redis w1')) key v2 3600); [done| |].
  - by rewrite S2.
  - rewrite S2. simpl. lia.
Qed.

Lemma cache_last_write_wins_witness :
  (get_cache "foo" (set_cache "foo" "baz" (set_cache "foo" "bar" world_up).2).2).1
  = Return (VDict [("key", VStr "foo"); ("value", VStr "baz")]).
Proof. apply (cache_last_write_wins "foo" "bar" "baz" world_up). reflexivity. Defined.

(** X8: keys are independent.  With Redis answering, a write to one key
    does not change the answer to a read of another key. *)
Theorem cache_keys_are_independent (key key' value' : string) (w : World) :
  key ≠ key' →
  fault_free 6 (faults (redis w)) = true →
  (get_cache key (set_cache key' value' w).2).1 = (get_cache key w).1.
Proof.
  intros Hne Hf.
  change 6 with (3 + 3) in Hf. rewrite fault_free_drop in Hf.
  apply andb_prop in Hf as [Hf1 Hf2].
  destruct (set_cache_fault_free key' value' w Hf1) as (w1 & E1 & S1 & D1).
  rewrite E1. simpl. rewrite <- D1 in Hf2.
  pose proof Hf1 as Hf1'. split_fault_free Hf1'.
  pose proof Hf2 as Hf2'. split_fault_free Hf2'.
  rewrite (get_cache_connected key w1) by (rewrite !fault_free_S, F2, F3; done).
  rewrite (get_cache_connected key w) by (rewrite !fault_free_S, F, F0; done).
  rewrite F4, F1.
  unfold redis_lookup. rewrite S1. simpl. by rewrite lookup_insert_ne.
Qed.

Lemma cache_keys_are_independent_witness :
  (get_cache "foo" (set_cache "other" "x" (set_cache "foo" "bar" world_up).2).2).1
  = (get_cache "foo" (set_cache "foo" "bar" world_up).2).1.
Proof.
  apply (cache_keys_are_independent "foo" "other" "x"
           (set_cache "foo" "bar" world_up).2).
  - discriminate.
  - reflexivity.
Defined.

(** ** Publishing, whatever happens *)

(** Closes a case of [send_message]: the calls made are an initial segment
    of the script. *)
Ltac script_prefix :=
  first
    [ solve [ exists ""; eexists; split; [by rewrite <- ?app_assoc|];
              split; [by eexists|done] ]
    | solve [ eexists _, _; split; [by rewrite <- ?app_assoc|];
              split; [by eexists|done] ] ].

(** X9: whatever happens, the calls [send_message] makes to the broker are
    a non-empty initial segment of the script connect, channel,
    queue_declare(messages_p, durable), basic_publish to messages_p through
    the default exchange with delivery mode 2, channel close, connection
    close: it stops at the first call that fails, repeats none, and so
    publishes at most once and to no other queue. *)
Theorem send_message_follows_the_script `{Platform} (rq : MessageRequest.t)
    (w : World) :
  let q := "messages_" +:+ MessageRequest.priority rq in
  ∃ body cmds,
    calls (rabbitmq (send_message rq w).2) = calls (rabbitmq w) ++ cmds
    ∧ cmds `prefix_of` publish_script q body
    ∧ cmds ≠ [].
Proof.
  destruct w as [pg rd [[qs] fs tr] cnt dur [t ts] lg]. intros q.
  unfold send_message, publish_script. unfold_calls.
  rewrite short_string_empty. cbn. fold q.
  ask_oracle; [script_prefix|]. ask_oracle; [script_prefix|].
  ask_oracle; [script_prefix|].
  destruct (short_string q) eqn:Hshort; cbn; [|script_prefix].
  unfold broker_declare. cbn.
  destruct (qs !! q) as [[d old]|] eqn:Hq; cbn.
  - case_bool_decide as Hd; cbn; [|script_prefix].
    ask_oracle; [script_prefix|].
    rewrite broker_publish_default. cbn. rewrite Hq. cbn.
    ask_oracle; [script_prefix|]. ask_oracle; script_prefix.
  - ask_oracle; [script_prefix|].
    rewrite broker_publish_default. cbn. rewrite lookup_insert_eq. cbn.
    ask_oracle; [script_prefix|]. ask_oracle; script_prefix.
Qed.

(** Asks the oracle and tells a hypothesis on it the answer. *)
Ltac ask_oracle_in Hf :=
  match goal with
  | |- context [hd false ?fs] =>
      let F := fresh "F" in
      destruct (hd false fs) eqn:F; rewrite ?F in Hf; cbn in *
  end.

(** Closes a goal [c ∉ l] on a list of distinct constructors. *)
Ltac not_among :=
  let Hin := fresh "Hin" in
  intros Hin;
  repeat (apply elem_of_cons in Hin as [Hin|Hin]; [discriminate Hin|]);
  by apply elem_of_nil in Hin.

(** X10: the envelope a successful [send_message] leaves at the end of the
    queue is the JSON document whose [id] and [message] are those of the
    response and whose [priority] is the one requested, published with
    delivery mode 2. *)
Theorem published_envelope_matches_response `{Platform}
    (rq : MessageRequest.t) (w w' : World) (m : MessageResponse.t) :
  send_message rq w = (Return m, w') →
  let q := "messages_" +:+ MessageRequest.priority rq in
  ∃ ts,
    waiting (server (rabbitmq w')) q =
      waiting (server (rabbitmq w)) q ++
      [(json_dumps
          (VDict [("id", VStr (MessageResponse.id m));
                  ("message", VStr (MessageResponse.message m));
                  ("priority", VStr (MessageRequest.priority rq));
                  ("timestamp", VStr ts)]), 2%Z)].
Proof.
  destruct w as [pg rd [[qs] fs tr] cnt dur [t ts] lg]. intros Hsend q.
  revert Hsend. unfold send_message. unfold_calls.
  rewrite short_string_empty. cbn. fold q.
  ask_oracle; [done|]. ask_oracle; [done|]. ask_oracle; [done|].
  destruct (short_string q) eqn:Hshort; cbn; [|done].
  unfold broker_declare, waiting. cbn.
  destruct (qs !! q) as [[d old]|] eqn:Hq; cbn.
  - case_bool_decide as Hd; cbn in *; [subst d|done].
    ask_oracle; [done|].
    rewrite broker_publish_default. cbn. rewrite Hq. cbn.
    ask_oracle; [done|]. ask_oracle; [done|].
    intros [= <- <-]. cbn. rewrite lookup_insert_eq. cbn. by eexists.
  - ask_oracle; [done|].
    rewrite broker_publish_default. cbn. rewrite lookup_insert_eq. cbn.
    ask_oracle; [done|]. ask_oracle; [done|].
    intros [= <- <-]. cbn. rewrite insert_insert_eq, lookup_insert_eq. cbn.
    by eexists.
Qed.

Lemma published_envelope_matches_response_witness :
  let rq := MessageRequest.parse "hi" (Some "high") in
  ∃ ts,
    waiting (server (rabbitmq (@send_message decimal_platform rq world_up).2))
      "messages_high" =
      waiting (server (rabbitmq world_up)) "messages_high" ++
      [(plain_dumps
          (VDict [("id", VStr "msg_1700000000000000");
                  ("message", VStr "hi");
                  ("priority", VStr "high");
                  ("timestamp", VStr ts)]), 2%Z)].
Proof.
  intros rq.
  apply (@published_envelope_matches_response decimal_platform rq world_up
           (@send_message decimal_platform rq world_up).2
           (MessageResponse.mk "msg_1700000000000000" "hi" "sent"
              "1700000000000000")).
  vm_compute. reflexivity.
Defined.



(** ** Connections left open *)

(** X12: when the connection to the broker opens and [channel],
    [queue_declare] or [basic_publish] then raises, [send_message] answers
    500 and never calls the connection's [close]. *)
Theorem send_message_failure_leaves_connection_open `{Platform}
    (rq : MessageRequest.t) (w : World) :
  hd false (faults (rabbitmq w)) = false →
  fault_free 4 (faults (rabbitmq w)) = false →
  (send_message rq w).1 = Raise (HTTPException 500 "Failed to send message")
  ∧ ∃ cmds,
      calls (rabbitmq (send_message rq w).2) = calls (rabbitmq w) ++ MqConnect :: cmds
      ∧ MqClose ∉ cmds.
Proof.
  destruct w as [pg rd [[qs] fs tr] cnt dur [t ts] lg]. intros F Hf.
  cbn [rabbitmq faults server queues] in *.
  rewrite !fault_free_S, fault_free_0, F in Hf. simpl in Hf.
  unfold send_message. unfold_calls.
  rewrite short_string_empty. cbn. rewrite F. cbn.
  ask_oracle_in Hf.
  { split; [done|]. eexists. split; [by rewrite <- ?app_assoc|not_among]. }
  ask_oracle_in Hf.
  { split; [done|]. eexists. split; [by rewrite <- ?app_assoc|not_among]. }
  set (q := "messages_" +:+ MessageRequest.priority rq).
  destruct (short_string q) eqn:Hshort; cbn.
  2:{ split; [done|]. eexists. split; [by rewrite <- ?app_assoc|not_among]. }
  unfold broker_declare. cbn.
  destruct (qs !! q) as [[d old]|] eqn:Hq; cbn.
  - case_bool_decide as Hd; cbn.
    + ask_oracle_in Hf; [|done].
      split; [done|]. eexists. split; [by rewrite <- ?app_assoc|not_among].
    + split; [done|]. eexists. split; [by rewrite <- ?app_assoc|not_among].
  - ask_oracle_in Hf; [|done].
    split; [done|]. eexists. split; [by rewrite <- ?app_assoc|not_among].
Qed.

Lemma send_message_failure_leaves_connection_open_witness :
  let rq := MessageRequest.parse "hi" None in
  (@send_message decimal_platform rq world_query_fails).1
    = Raise (HTTPException 500 "Failed to send message")
  ∧ ∃ cmds,
      calls (rabbitmq (@send_message decimal_platform rq world_query_fails).2)
        = calls (rabbitmq world_query_fails) ++ MqConnect :: cmds
      ∧ MqClose ∉ cmds.
Proof.
  intros rq.
  apply (@send_message_failure_leaves_connection_open decimal_platform rq
           world_query_fails); reflexivity.
Defined.

(** X13: when the connection to the database opens and any of the calls up
    to the closing of the cursor raises, [get_users] answers 500 and never
    calls the connection's [close]; the cursor, once opened, is closed. *)
Theorem get_users_failure_leaves_connection_open (w : World) :
  hd false (faults (postgres w)) = false →
  fault_free 5 (faults (postgres w)) = false →
  (get_users w).1 = Raise (HTTPException 500 "Failed to get users")
  ∧ ∃ cmds,
      calls (postgres (get_users w).2) = calls (postgres w) ++ PgConnect :: cmds
      ∧ (PgClose ∉ cmds)
      ∧ (hd false (tail (faults (postgres w))) = false → (PgCursorClose ∈ cmds)).
Proof.
  destruct w as [[db fs tr] rd mq cnt dur clk lg]. intros F Hf.
  cbn [postgres faults server] in *.
  rewrite !fault_free_S, fault_free_0, F in Hf. simpl in Hf.
  unfold get_users. unfold_calls. cbn. rewrite F. cbn.
  ask_oracle_in Hf.
  { split; [done|]. eexists. split; [by rewrite <- ?app_assoc|].
    split; [not_among|done]. }
  assert (Hclosed : ∀ l : list pg_cmd, PgCursorClose ∈ l ++ [PgCursorClose]).
  { intros l. apply elem_of_app. right. by apply list_elem_of_singleton. }
  ask_oracle_in Hf.
  { ask_oracle; (split; [done|]; eexists;
      (split; [by rewrite <- ?app_assoc|]); split; [not_among|]; intros _;
      apply (Hclosed [PgCursor; PgExecute _])). }
  rewrite run_query_users. cbn.
  destruct (users db) as [table|] eqn:Htable; cbn.
  2:{ ask_oracle; (split; [done|]; eexists;
      (split; [by rewrite <- ?app_assoc|]); split; [not_among|]; intros _;
      apply (Hclosed [PgCursor; PgExecute _])). }
  destruct (forallb _ table) eqn:Hkeys; cbn.
  2:{ ask_oracle; (split; [done|]; eexists;
      (split; [by rewrite <- ?app_assoc|]); split; [not_among|]; intros _;
      apply (Hclosed [PgCursor; PgExecute _])). }
  ask_oracle_in Hf.
  { ask_oracle; (split; [done|]; eexists;
      (split; [by rewrite <- ?app_assoc|]); split; [not_among|]; intros _;
      apply (Hclosed [PgCursor; PgExecute _; PgFetchall])). }
  ask_oracle_in Hf; [|done].
  split; [done|]. eexists. split; [by rewrite <- ?app_assoc|].
  split; [not_among|]. intros _.
  apply (Hclosed [PgCursor; PgExecute _; PgFetchall]).
Qed.

Lemma get_users_failure_leaves_connection_open_witness :
  (get_users world_query_fails).1 = Raise (HTTPException 500 "Failed to get users")
  ∧ ∃ cmds,
      calls (postgres (get_users world_query_fails).2)
        = calls (postgres world_query_fails) ++ PgConnect :: cmds
      ∧ (PgClose ∉ cmds)
      ∧ (hd false (tail (faults (postgres world_query_fails))) = false →
         (PgCursorClose ∈ cmds)).
Proof.
  apply (get_users_failure_leaves_connection_open world_query_fails); reflexivity.
Defined.

(** ** The operator log *)

Section logs.
Context `{Platform}.

Ltac logged := cbn; first [done | by eexists _, _].

Lemma send_message_logs rq w : logs_by_outcome (logger w) (send_message rq w).
Proof.
  destruct w as [pg rd [[qs] fs tr] cnt dur [t ts] lg].
  unfold logs_by_outcome, send_message. unfold_calls.
  rewrite short_string_empty. cbn.
  ask_oracle; [logged|]. ask_oracle; [logged|]. ask_oracle; [logged|].
  set (q := "messages_" +:+ MessageRequest.priority rq).
  destruct (short_string q) eqn:Hshort; cbn; [|logged].
  unfold broker_declare. cbn.
  destruct (qs !! q) as [[d old]|] eqn:Hq; cbn.
  - case_bool_decide as Hd; cbn; [|logged].
    ask_oracle; [logged|].
    rewrite broker_publish_default. cbn. rewrite Hq. cbn.
    ask_oracle; [logged|]. ask_oracle; logged.
  - ask_oracle; [logged|].
    rewrite broker_publish_default. cbn. rewrite lookup_insert_eq. cbn.
    ask_oracle; [logged|]. ask_oracle; logged.
Qed.

Lemma get_cache_logs key w : logs_by_outcome (logger w) (get_cache key w).
Proof.
  destruct w as [pg [s fs tr] mq cnt dur clk lg].
  unfold logs_by_outcome, get_cache. unfold_calls. cbn.
  ask_oracle; [logged|]. ask_oracle; [logged|]. ask_oracle; [logged|].
  destruct (redis_lookup s key); logged.
Qed.

Lemma set_cache_logs key value w :
  logs_by_outcome (logger w) (set_cache key value w).
Proof.
  destruct w as [pg [s fs tr] mq cnt dur clk lg].
  unfold logs_by_outcome, set_cache. unfold_calls. cbn.
  ask_oracle; [logged|]. ask_oracle; [logged|]. ask_oracle; logged.
Qed.

Lemma get_users_logs w : logs_by_outcome (logger w) (get_users w).
Proof.
  destruct w as [[db fs tr] rd mq cnt dur clk lg].
  unfold logs_by_outcome, get_users. unfold_calls. cbn.
  ask_oracle; [logged|]. ask_oracle; [logged|].
  ask_oracle; [ask_oracle; logged|].
  rewrite run_query_users. cbn.
  destruct (users db) as [table|]; cbn; [|ask_oracle; logged].
  destruct (forallb _ table); cbn; [|ask_oracle; logged].
  ask_oracle; [ask_oracle; logged|].
  ask_oracle; [logged|]. ask_oracle; logged.
Qed.

End logs.

(** X14: a request to any route but [/health] that is answered with an
    error leaves exactly one record in the log, the exception that was
    caught; a request that succeeds leaves none. *)
Theorem error_responses_are_logged_once `{Platform} (rq : request) (w : World) :
  rq ≠ GET_health →
  match (handle rq w).1 with
  | Return _ => logger (handle rq w).2 = logger w
  | Raise _ => ∃ what e, logger (handle rq w).2 = logger w ++ [(what, e)]
  end.
Proof.
  intros Hrq.
  assert (Hmap : ∀ {A} (f : A → payload) (m : M World A),
            logs_by_outcome (logger w) (m w) →
            logs_by_outcome (logger w) (fmap_M f m w)).
  { intros A f m. unfold logs_by_outcome, fmap_M, bind, ret.
    by destruct (m w) as [[a|e] w']. }
  destruct rq; [|done|..]; unfold handle.
  - apply (Hmap _ Json root). by unfold logs_by_outcome.
  - by unfold metrics.
  - apply (Hmap _ Sent), send_message_logs.
  - apply (Hmap _ Json), get_cache_logs.
  - apply (Hmap _ Json), set_cache_logs.
  - apply (Hmap _ Json), get_users_logs.
Qed.

Lemma error_responses_are_logged_once_witness :
  ∃ what e,
    logger (@handle decimal_platform (GET_cache "foo") world_down).2
    = logger world_down ++ [(what, e)].
Proof.
  apply (@error_responses_are_logged_once decimal_platform (GET_cache "foo")
           world_down).
  discriminate.
Defined.

(** ** Reading users *)

(** X15: from a table of at most 10 rows a successful [get_users] returns
    every row, each exactly once, reordered only; from an empty table it
    returns the empty list, with status 200. *)
Theorem get_users_returns_a_small_table_whole (w w' : World) (r : pyval)
    (table : list row) :
  get_users w = (Return r, w') →
  users (server (postgres w)) = Some table →
  length table ≤ 10 →
  ∃ rows,
    r = VDict [("users", VList (map VDict rows))]
    ∧ rows ≡ₚ table
    ∧ (table = [] → rows = []).
Proof.
  intros Hget Ht Hlen.
  destruct (get_users_returns _ _ _ Hget) as (table' & Ht' & ->).
  rewrite Ht in Ht'. injection Ht' as <-.
  set (R := sorts_before (server (postgres w))
              (next_tie_break (server (postgres w)))).
  exists (take 10 (merge_sort R table)). split; [done|].
  assert (Hall : take 10 (merge_sort R table) = merge_sort R table).
  { apply take_ge.
    by rewrite (Permutation_length (merge_sort_Permutation _ table)). }
  rewrite Hall. split; [apply merge_sort_Permutation|].
  intros ->. reflexivity.
Qed.

Lemma get_users_returns_a_small_table_whole_witness :
  ∃ rows,
    VDict [("users", VList (map VDict
      [ [("id", VInt 3); ("created_at", VNone)];
        [("id", VInt 2); ("created_at", VDatetime 1700000009000000)];
        [("id", VInt 1); ("created_at", VDatetime 1700000005000000)] ]))]
    = VDict [("users", VList (map VDict rows))]
    ∧ rows ≡ₚ three_users
    ∧ (three_users = [] → rows = []).
Proof.
  apply (get_users_returns_a_small_table_whole world_up (get_users world_up).2 _
           three_users).
  - reflexivity.
  - reflexivity.
  - simpl. lia.
Defined.

(** ** Reading the cache *)

(** X16: with Redis answering, [get_cache] returns whatever string the key
    holds at that time, the empty string included, whoever wrote it and
    with or without a deadline. *)
Theorem get_cache_returns_what_is_stored (key value : string) (w : World) :
  fault_free 3 (faults (redis w)) = true →
  redis_lookup (server (redis w)) key = Some value →
  (get_cache key w).1 = Return (VDict [("key", VStr key); ("value", VStr value)]).
Proof.
  intros Hf Hk. pose proof Hf as Hf'. split_fault_free Hf'.
  rewrite (get_cache_connected key w) by (rewrite !fault_free_S, F, F0; done).
  by rewrite F1, Hk.
Qed.

Lemma get_cache_returns_what_is_stored_witness :
  (get_cache "blank" world_blank_value).1
  = Return (VDict [("key", VStr "blank"); ("value", VStr "")]).
Proof.
  apply (get_cache_returns_what_is_stored "blank" "" world_blank_value);
    reflexivity.
Defined.

(** ** The log of the health check *)

Section health_log.
Context `{Platform}.

Lemma check_postgresql_log sv w :
  ∃ new,
    logger (world (check_postgresql (mkFrame sv w)).2) = logger w ++ new
    ∧ (fault_free 3 (faults (postgres w)) = false →
       ∃ e, new = [("Database connection error", e)]
            ∨ new = [("PostgreSQL health check failed", e)]).
Proof.
  destruct w as [[db fs tr] rd mq cnt dur clk lg].
  unfold check_postgresql, global, services_setitem. unfold_calls.
  cbn [postgres faults]. rewrite !fault_free_S, fault_free_0. cbn.
  ask_oracle; [eexists; split; [done|]; intros _; eauto|].
  ask_oracle; [eexists; split; [done|]; intros _; eauto|].
  ask_oracle.
  { ask_oracle; (eexists; split; [done|]; intros _; eauto). }
  rewrite run_query_SELECT_1. cbn.
  ask_oracle; [eexists; split; [done|]; intros [=]|].
  ask_oracle; [eexists; split; [done|]; intros [=]|].
  exists []. split; [by rewrite app_nil_r|]. intros [=].
Qed.

Lemma check_redis_log sv w :
  ∃ new,
    logger (world (check_redis (mkFrame sv w)).2) = logger w ++ new
    ∧ (fault_free 3 (faults (redis w)) = false →
       ∃ e, new = [("Redis connection error", e)]
            ∨ new = [("Redis health check failed", e)]).
Proof.
  destruct w as [pg [s fs tr] mq cnt dur clk lg].
  unfold check_redis, global, services_setitem. unfold_calls.
  cbn [redis faults]. rewrite !fault_free_S, fault_free_0. cbn.
  ask_oracle; [eexists; split; [done|]; intros _; eauto|].
  ask_oracle; [eexists; split; [done|]; intros _; eauto|].
  ask_oracle; [eexists; split; [done|]; intros _; eauto|].
  exists []. split; [by rewrite app_nil_r|]. intros [=].
Qed.

Lemma check_rabbitmq_log sv w :
  ∃ new,
    logger (world (check_rabbitmq (mkFrame sv w)).2) = logger w ++ new
    ∧ (fault_free 2 (faults (rabbitmq w)) = false →
       ∃ e, new = [("RabbitMQ connection error", e)]
            ∨ new = [("RabbitMQ health check failed", e)]).
Proof.
  destruct w as [pg rd [b fs tr] cnt dur clk lg].
  unfold check_rabbitmq, global, services_setitem. unfold_calls.
  cbn [rabbitmq faults]. rewrite !fault_free_S, fault_free_0. cbn.
  ask_oracle; [eexists; split; [done|]; intros _; eauto|].
  ask_oracle; [eexists; split; [done|]; intros _; eauto|].
  exists []. split; [by rewrite app_nil_r|]. intros [=].
Qed.

(** The log of [health_check]: what the three probes logged, in order. *)
Lemma health_check_log w :
  ∃ new_pg new_redis new_mq,
    logger (health_check w).2 = logger w ++ new_pg ++ new_redis ++ new_mq
    ∧ (fault_free 3 (faults (postgres w)) = false →
       ∃ e, new_pg = [("Database connection error", e)]
            ∨ new_pg = [("PostgreSQL health check failed", e)])
    ∧ (fault_free 3 (faults (redis w)) = false →
       ∃ e, new_redis = [("Redis connection error", e)]
            ∨ new_redis = [("Redis health check failed", e)])
    ∧ (fault_free 2 (faults (rabbitmq w)) = false →
       ∃ e, new_mq = [("RabbitMQ connection error", e)]
            ∨ new_mq = [("RabbitMQ health check failed", e)]).
Proof.
  unfold health_check, with_services.
  unfold bind at 1, REQUEST_COUNT_inc, modify.
  set (w0 := mkWorld _ _ _ _ _ _ _).
  set (sv0 := <["postgresql" := "disconnected"]> _).
  destruct (check_postgresql_outcome sv0 w0) as (w1 & E1 & R1 & Q1).
  destruct (check_postgresql_log sv0 w0) as (new_pg & L1 & D1).
  rewrite E1 in L1. simpl in L1.
  set (sv1 := if fault_free 3 (faults (postgres w0)) then _ else _) in E1.
  destruct (check_redis_outcome sv1 w1) as (w2 & E2 & P2 & Q2).
  destruct (check_redis_log sv1 w1) as (new_redis & L2 & D2).
  rewrite E2 in L2. simpl in L2.
  set (sv2 := if fault_free 3 (faults (redis w1)) then _ else _) in E2.
  destruct (check_rabbitmq_outcome sv2 w2) as (w3 & E3 & P3 & R3).
  destruct (check_rabbitmq_log sv2 w2) as (new_mq & L3 & D3).
  rewrite E3 in L3. simpl in L3.
  exists new_pg, new_redis, new_mq.
  split; [|split_and!].
  - unfold bind, gets, ret. rewrite E1, E2, E3.
    unfold global, utcnow. simpl. rewrite L3, L2, L1.
    subst w0. simpl. by rewrite <- !app_assoc.
  - exact D1.
  - rewrite R1 in D2. exact D2.
  - rewrite Q2, Q1 in D3. exact D3.
Qed.

End health_log.

(** X17: every backend that [/health] reports as disconnected is explained
    in the log: the request has appended a record for it, either the
    accessor's connection error or the failure of its probe, holding the
    exception that was caught. *)
Theorem disconnected_backends_are_logged `{Platform} (w : World)
    (h : HealthResponse.t) (w' : World) :
  health_check w = (Return h, w') →
  ∃ new,
    logger w' = logger w ++ new
    ∧ (HealthResponse.services h !! "postgresql" = Some "disconnected" →
       ∃ e, ("Database connection error", e) ∈ new
            ∨ ("PostgreSQL health check failed", e) ∈ new)
    ∧ (HealthResponse.services h !! "redis" = Some "disconnected" →
       ∃ e, ("Redis connection error", e) ∈ new
            ∨ ("Redis health check failed", e) ∈ new)
    ∧ (HealthResponse.services h !! "rabbitmq" = Some "disconnected" →
       ∃ e, ("RabbitMQ connection error", e) ∈ new
            ∨ ("RabbitMQ health check failed", e) ∈ new).
Proof.
  intros Hh.
  destruct (health_check_returns w) as (h0 & w0 & E & _ & Hsv).
  rewrite Hh in E. injection E as <- <-.
  destruct (health_check_log w) as (n1 & n2 & n3 & Hlog & D1 & D2 & D3).
  rewrite Hh in Hlog. simpl in Hlog.
  exists (n1 ++ n2 ++ n3). split; [done|].
  assert (Hdis : ∀ b, Some (connectivity b) = Some "disconnected" → b = false)
    by (intros []; [discriminate|done]).
  rewrite Hsv. split_and!.
  - rewrite lookup_insert_eq. intros Hd%Hdis.
    destruct (D1 Hd) as [e [-> | ->]]; exists e; [left|right];
      apply elem_of_app; left; apply list_elem_of_singleton; done.
  - rewrite lookup_insert_ne, lookup_insert_eq by done. intros Hd%Hdis.
    destruct (D2 Hd) as [e [-> | ->]]; exists e; [left|right];
      apply elem_of_app; right; apply elem_of_app; left;
      apply list_elem_of_singleton; done.
  - rewrite !lookup_insert_ne, lookup_insert_eq by done. intros Hd%Hdis.
    destruct (D3 Hd) as [e [-> | ->]]; exists e; [left|right];
      apply elem_of_app; right; apply elem_of_app; right;
      apply list_elem_of_singleton; done.
Qed.

Lemma disconnected_backends_are_logged_witness :
  ∃ new,
    logger (@health_check decimal_platform world_down).2 = logger world_down ++ new
    ∧ (∃ e, ("Database connection error", e) ∈ new
            ∨ ("PostgreSQL health check failed", e) ∈ new)
    ∧ (∃ e, ("Redis connection error", e) ∈ new
            ∨ ("Redis health check failed", e) ∈ new)
    ∧ (∃ e, ("RabbitMQ connection error", e) ∈ new
            ∨ ("RabbitMQ health check failed", e) ∈ new).
Proof.
  destruct (@health_check decimal_platform world_down) as [[h|e] w'] eqn:Hh;
    [|vm_compute in Hh; discriminate Hh].
  destruct (@disconnected_backends_are_logged decimal_platform world_down h w' Hh)
    as (new & Hlog & Hpg & Hredis & Hmq).
  vm_compute in Hh. injection Hh as <- <-.
  exists new. split; [exact Hlog|].
  split; [apply Hpg; reflexivity|].
  split; [apply Hredis; reflexivity|apply Hmq; reflexivity].
Defined.

(** ** The order of the users, run *)

(** Users created at the same time come in an order the database chooses
    anew for each statement: here two reads in a row return them in
    opposite orders. *)
Example tied_users_in_either_order :
  let first := get_users world_tied in
  first.1 = Return (VDict [("users", VList (map VDict
      [ [("id", VInt 1); ("created_at", VDatetime 1700000005000000)];
        [("id", VInt 2); ("created_at", VDatetime 1700000005000000)] ]))])
  ∧ (get_users first.2).1 = Return (VDict [("users", VList (map VDict
      [ [("id", VInt 2); ("created_at", VDatetime 1700000005000000)];
        [("id", VInt 1); ("created_at", VDatetime 1700000005000000)] ]))]).
Proof. vm_compute. done. Qed.

(** A [created_at] column of numbers is sorted as well, greatest first. *)
Example numbered_users_descending :
  (get_users world_numbered).1 = Return (VDict [("users", VList (map VDict
      [ [("id", VInt 2); ("created_at", VInt 30)];
        [("id", VInt 3); ("created_at", VInt 20)];
        [("id", VInt 1); ("created_at", VInt 10)] ]))]).
Proof. vm_compute. done. Qed.
